(** * Storage dispatch utilities of the Azure cross-platform CLI

    A shallow embedding of the [StorageUtil] module of the storage
    commands: configuration resolution ([getRestConcurrency],
    [getRestOperationTimeout]), service resolution, the operation dispatcher
    ([performStorageOperation]), the timeout injection
    ([setOperationTimeout]) and the progress display, then the test
    support ([EnvironmentDownloader], [toStorageCmd]); followed by the
    properties the specification states about them (C1 to C10) and by
    further properties of the code (X1 to X22). *)

From Stdlib Require Import ZArith Ascii String Lia.
From stdpp Require Import base option list strings pretty gmap.

Local Open Scope string_scope.
Local Open Scope Z_scope.

(** ** JavaScript values *)

(** The Number values the module computes with are integer valued, NaN or
    infinite: [parseInt] yields nothing else, and [os.cpus().length] is an
    array length.  [Int 0] stands for both zeros: the module only compares
    the numbers it reads ([=== 0], [<= 0], [> 0]), which cannot tell [-0]
    from [+0]. *)
Inductive jsnum : Type :=
  | NaN
  | Int (z : Z)
  | Infinity (negative : bool).

Inductive jsval : Type :=
  | JUndefined
  | JNull
  | JBool (b : bool)
  | JNum (n : jsnum)
  | JStr (s : string)
  | JFun (f : nat)    (* a function object, by identity *)
  | JObj (o : nat).   (* any other object, by identity *)

#[global] Instance jsnum_eq_dec : EqDecision jsnum.
Proof. solve_decision. Defined.

#[global] Instance jsval_eq_dec : EqDecision jsval.
Proof. solve_decision. Defined.

(** An object seen through property reads and writes: [o !! k = None] is
    a property that is absent, so that [o[k]] is [undefined]. *)
Definition get (o : gmap string jsval) (k : string) : jsval :=
  default JUndefined (o !! k).

(** [isNaN] on a Number. *)
Definition isNaN (n : jsnum) : bool :=
  match n with NaN => true | _ => false end.

(** The relational operators on Numbers; every comparison with NaN is
    false. *)
Definition num_lt (a b : jsnum) : bool :=
  match a, b with
  | NaN, _ | _, NaN => false
  | Int x, Int y => x <? y
  | Int _, Infinity negative => negb negative
  | Infinity negative, Int _ => negative
  | Infinity n1, Infinity n2 => n1 && negb n2
  end.

Definition num_eq (a b : jsnum) : bool :=
  match a, b with
  | Int x, Int y => x =? y
  | Infinity n1, Infinity n2 => Bool.eqb n1 n2
  | _, _ => false
  end.

Definition num_le (a b : jsnum) : bool := num_lt a b || num_eq a b.
Definition num_gt (a b : jsnum) : bool := num_lt b a.

(** [ToBoolean]. *)
Definition truthy (v : jsval) : bool :=
  match v with
  | JUndefined | JNull => false
  | JBool b => b
  | JNum NaN => false
  | JNum (Int z) => negb (z =? 0)
  | JNum (Infinity _) => true
  | JStr s => negb (String.eqb s "")
  | JFun _ | JObj _ => true
  end.

(** [a || b]. *)
Definition js_or (a b : jsval) : jsval := if truthy a then a else b.

Definition typeof (v : jsval) : string :=
  match v with
  | JUndefined => "undefined"
  | JNull | JObj _ => "object"
  | JBool _ => "boolean"
  | JNum _ => "number"
  | JStr _ => "string"
  | JFun _ => "function"
  end.

(** ** Numbers out of numerals *)

(** The binary64 value nearest to a natural number [m], ties to even: [m]
    itself up to 53 significant bits, else [m] rounded at the bit where
    the 53rd ends. *)
Definition round_to_double (m : Z) : Z :=
  let e := Z.log2 m - 52 in
  if e <=? 0 then m
  else
    let q := Z.shiftr m e in
    let r := Z.land m (Z.ones e) in
    let half := Z.shiftl 1 (e - 1) in
    Z.shiftl (if (half <? r) || ((r =? half) && Z.odd q) then q + 1 else q) e.

(** The Number value of a mathematical integer. *)
Definition of_integer (z : Z) : jsnum :=
  let r := round_to_double (Z.abs z) in
  if 2 ^ 1024 <=? r then Infinity (z <? 0) else Int (Z.sgn z * r).

(** ** Strings

    A string is a sequence of code units below 256 (ISO 8859-1). *)

Definition code (c : ascii) : Z := Z.of_N (N_of_ascii c).

(** [StrWhiteSpaceChar]: TAB, LF, VT, FF, CR, SP and NBSP. *)
Definition is_white_space (c : ascii) : bool :=
  let n := code c in
  ((9 <=? n) && (n <=? 13)) || (n =? 32) || (n =? 160).

Fixpoint trim_left (s : string) : string :=
  match s with
  | String c s' => if is_white_space c then trim_left s' else s
  | EmptyString => EmptyString
  end.

(** The value of a character as a digit, letters counting from ten. *)
Definition digit_of (c : ascii) : option Z :=
  let n := code c in
  if (48 <=? n) && (n <=? 57) then Some (n - 48)
  else if (97 <=? n) && (n <=? 122) then Some (n - 87)
  else if (65 <=? n) && (n <=? 90) then Some (n - 55)
  else None.

Definition radix_digit (R : Z) (c : ascii) : option Z :=
  match digit_of c with
  | Some d => if d <? R then Some d else None
  | None => None
  end.

(** The longest prefix of [s] made of radix-[R] digits, as digit values. *)
Fixpoint leading_digits (R : Z) (s : string) : list Z :=
  match s with
  | String c s' =>
      match radix_digit R c with
      | Some d => d :: leading_digits R s'
      | None => []
      end
  | EmptyString => []
  end.

Definition digits_value (R : Z) (ds : list Z) : Z :=
  fold_left (fun acc d => acc * R + d) ds 0.

Definition lower_char (c : ascii) : ascii :=
  let n := code c in
  if ((65 <=? n) && (n <=? 90))
     || ((192 <=? n) && (n <=? 222) && negb (n =? 215))
  then ascii_of_N (Z.to_N (n + 32)) else c.

(** [String.prototype.toLowerCase]. *)
Fixpoint toLowerCase (s : string) : string :=
  match s with
  | String c s' => String (lower_char c) (toLowerCase s')
  | EmptyString => EmptyString
  end.

(** ** What the module takes from its platform

    Node ([os], [process.env], the rendering of Numbers and objects as
    strings), the [azure] package (settings parser, service constructors,
    the methods of a service) are given, not defined here. *)

Inductive error : Type :=
  | TypeError                 (* raised by the engine itself *)
  | Thrown (v : jsval)        (* [throw v] in this module *)
  | Failure (e : nat).        (* raised inside the azure package *)

Inductive outcome (A : Type) : Type :=
  | Return (a : A)
  | Throw (e : error).
Arguments Return {A} a.
Arguments Throw {A} e.

Record StorageServiceSettings : Type := {
  _name : jsval;
  _key : jsval;
  _blobEndpointUri : jsval;
  _tableEndpointUri : jsval;
  _queueEndpointUri : jsval;
}.

(** The arguments a service constructor is called with: none, or account
    name, key and endpoint. *)
Definition credentials : Type := option (jsval * jsval * jsval).

Class Platform : Type := {
  (* Number::toString and the string an object converts to *)
  NumberToString : jsnum -> string;
  ObjectToString : nat -> string;
  (* os.cpus().length *)
  cpus_length : N;
  (* process.env *)
  env : gmap string string;
  (* azure.StorageServiceSettings.createFromConnectionString *)
  createFromConnectionString : string -> outcome StorageServiceSettings;
  (* azure.createBlobService and its siblings: the service object, seen
     through its property reads *)
  createBlobService : credentials -> outcome (gmap string jsval);
  createTableService : credentials -> outcome (gmap string jsval);
  createQueueService : credentials -> outcome (gmap string jsval);
  (* f.apply_(_, self, args) on the function object [f] *)
  apply_ : nat -> gmap string jsval -> list jsval -> outcome jsval;
}.

(** ** Constants of the module *)

Definition ENV_CONNECTIONSTRING_NAME : string := "AZURE_STORAGE_CONNECTION_STRING".
Definition CONCURRENTCY_CONFIG_KEY_NAME : string := "azure_storage_concurrency".
Definition OPERATION_TIMEOUT_CONFIG_KEY_NAME : string := "azure_storage_timeout".

Module OperationType.
Definition Blob : string := "blob".
Definition Queue : string := "queue".
Definition Table : string := "table".
End OperationType.

Section StorageUtil.
Context `{Platform}.

(** [ToString]. *)
Definition ToString (v : jsval) : string :=
  match v with
  | JUndefined => "undefined"
  | JNull => "null"
  | JBool true => "true"
  | JBool false => "false"
  | JNum n => NumberToString n
  | JStr s => s
  | JFun f | JObj f => ObjectToString f
  end.

(** [parseInt(string, radix)], for an integer [radix]. *)
Definition parseInt (string : jsval) (radix : Z) : jsnum :=
  let inputString := ToString string in
  let str := trim_left inputString in
  let negative := match str with
                  | String c _ => Ascii.eqb c "-"
                  | EmptyString => false
                  end in
  let str := match str with
             | String c rest =>
                 if Ascii.eqb c "+" || Ascii.eqb c "-" then rest else str
             | EmptyString => str
             end in
  let '(R, stripPrefix) :=
    if radix =? 0 then (10, true) else (radix, radix =? 16) in
  if negb (radix =? 0) && ((R <? 2) || (36 <? R)) then NaN
  else
    let '(str, R) :=
      match str with
      | String c0 (String c1 rest) =>
          if stripPrefix && Ascii.eqb c0 "0"
             && (Ascii.eqb c1 "x" || Ascii.eqb c1 "X")
          then (rest, 16) else (str, R)
      | _ => (str, R)
      end in
    match leading_digits R str with
    | [] => NaN
    | ds => let mathInt := digits_value R ds in
            of_integer (if negative then - mathInt else mathInt)
    end.

(** ** The module *)

(** What [flows.funnel(max)] returns, known by the capacity it was made
    for. *)
Record funnel : Type := Funnel { max : jsnum }.

(** The module variables the dispatch layer reads; [None] is [null], the
    value both start with.  [operationTimeout] only ever holds [null] or a
    Number. *)
Record state : Type := {
  restFunnel : option funnel;
  operationTimeout : option jsnum;
}.

Definition initial : state := {| restFunnel := None; operationTimeout := None |}.

(** [getDefaultRestConcurrency()] *)
Definition getDefaultRestConcurrency : jsnum :=
  let cpuCount := Z.of_N cpus_length in
  let asyncTasksPerCoreMultiplier := 1 in
  Int (cpuCount * asyncTasksPerCoreMultiplier).

(** [getRestConcurrency(cfg)] *)
Definition getRestConcurrency (cfg : gmap string jsval) : jsnum :=
  let radix := 10 in
  let definedConcurrency := parseInt (get cfg CONCURRENTCY_CONFIG_KEY_NAME) radix in
  if isNaN definedConcurrency || num_eq definedConcurrency (Int 0)
  then getDefaultRestConcurrency
  else definedConcurrency.

(** [getRestOperationTimeout(cfg)]; [None] is [null]. *)
Definition getRestOperationTimeout (cfg : gmap string jsval) : option jsnum :=
  let radix := 10 in
  let definedTimeout := parseInt (get cfg OPERATION_TIMEOUT_CONFIG_KEY_NAME) radix in
  if isNaN definedTimeout || num_le definedTimeout (Int 0)
  then None
  else Some definedTimeout.

(** [StorageUtil.init(azureCli)], given what [utils.readConfig()] read. *)
Definition init (cfg : gmap string jsval) : state :=
  let restConcurrency := getRestConcurrency cfg in
  {| restFunnel := Some (Funnel restConcurrency);
     operationTimeout := getRestOperationTimeout cfg |}.

(** [new StorageUtil.StorageOperation(type, operation)] *)
Definition StorageOperation (type operation : jsval) : gmap string jsval :=
  <["operation" := operation]> (<["type" := type]> ∅).

(** [StorageUtil.setOperationTimeout(options)]: the properties of [options]
    once the call has returned. *)
Definition setOperationTimeout (st : state) (options : gmap string jsval)
  : gmap string jsval :=
  match operationTimeout st with
  | Some timeout =>
      if bool_decide (get options "timeoutintervalInMs" = JUndefined)
         && negb (isNaN timeout) && num_gt timeout (Int 0)
      then <["timeoutIntervalInMs" := JNum timeout]> options
      else options
  | None => options
  end.

(** [isFunction(func)] *)
Definition isFunction (func : jsval) : bool :=
  String.eqb (typeof func) "function".

(** *** Calls that leave the module

    A call returns or throws, and records the services it asked the
    azure package for, its entries into the funnel and the methods it
    applied.  The call of the settings parser is not among the events:
    it shows in the outcome only. *)
Inductive event : Type :=
  | Created (type : string) (c : credentials)
  | Entered (f : funnel)
  | Applied (method : nat) (args : list jsval).

Definition M (A : Type) : Type := list event * outcome A.

#[global] Instance M_ret : MRet M := fun A a => ([], Return a).
#[global] Instance M_bind : MBind M := fun A B k m =>
  match m with
  | (t, Return a) => let '(t', r) := k a in ((t ++ t')%list, r)
  | (t, Throw e) => (t, Throw e)
  end.

Definition throw {A} (e : error) : M A := ([], Throw e).
Definition emit (ev : event) : M unit := ([ev], Return tt).
Definition lift {A} (o : outcome A) : M A := ([], o).

(** [!connectionString] on a string that may be [undefined]. *)
Definition no_string (s : option string) : bool :=
  match s with
  | None => true
  | Some s => String.eqb s ""
  end.

(** [getStorageServiceSettings(connectionString)]; the result [None] is
    [null]. *)
Definition getStorageServiceSettings (connectionString : option string)
  : M (option StorageServiceSettings) :=
  let connectionString :=
    if no_string connectionString then env !! ENV_CONNECTIONSTRING_NAME
    else connectionString in
  match connectionString with
  | Some cs =>
      if String.eqb cs "" then mret None
      else settings ← lift (createFromConnectionString cs); mret (Some settings)
  | None => mret None
  end.

(** [StorageUtil.getBlobService(connectionString)] *)
Definition getBlobService (connectionString : option string)
  : M (gmap string jsval) :=
  serviceSettings ← getStorageServiceSettings connectionString;
  match serviceSettings with
  | None =>
      emit (Created OperationType.Blob None);; lift (createBlobService None)
  | Some ss =>
      let c := Some (_name ss, _key ss, _blobEndpointUri ss) in
      emit (Created OperationType.Blob c);; lift (createBlobService c)
  end.

(** [StorageUtil.getTableService(connectionString)] *)
Definition getTableService (connectionString : option string)
  : M (gmap string jsval) :=
  serviceSettings ← getStorageServiceSettings connectionString;
  match serviceSettings with
  | None =>
      emit (Created OperationType.Table None);; lift (createTableService None)
  | Some ss =>
      let c := Some (_name ss, _key ss, _tableEndpointUri ss) in
      emit (Created OperationType.Table c);; lift (createTableService c)
  end.

(** [StorageUtil.getQueueService(connectionString)] *)
Definition getQueueService (connectionString : option string)
  : M (gmap string jsval) :=
  serviceSettings ← getStorageServiceSettings connectionString;
  match serviceSettings with
  | None =>
      emit (Created OperationType.Queue None);; lift (createQueueService None)
  | Some ss =>
      let c := Some (_name ss, _key ss, _queueEndpointUri ss) in
      emit (Created OperationType.Queue c);; lift (createQueueService c)
  end.

(** What a caller passes as [storageOperation]: [null], nothing
    ([undefined]) or an object. *)
Inductive descriptor : Type :=
  | DNull
  | DUndefined
  | DObject (o : gmap string jsval).

Definition dquote : string := String (ascii_of_N 34) "".

(** A method found on a service, ready to be run inside the funnel. *)
Record bound : Type := Bound {
  service : gmap string jsval;
  method : jsval;
  operationArgs : list jsval;
}.

(** [performStorageOperation] up to the funnel: the descriptor is read,
    the service made and the method looked up.  [Return None] is the
    [return;] of the first line. *)
Definition prepare (storageOperation : descriptor) (rest : list jsval)
  : M (option bound) :=
  match storageOperation with
  | DNull => mret None
  | DUndefined => throw TypeError
  | DObject o =>
      (* only a string has [toLowerCase] *)
      type ← (match js_or (get o "type") (JStr "") with
              | JStr s => mret (toLowerCase s)
              | _ => throw TypeError
              end);
      let operation := js_or (get o "operation") (JStr "") in
      service ←
        (if String.eqb type OperationType.Blob then getBlobService None
         else if String.eqb type OperationType.Table then getTableService None
         else if String.eqb type OperationType.Queue then getQueueService None
         else throw (Thrown (JStr ("Invalid azure operation type : " +:+ type))));
      if negb (truthy (get service (ToString operation)))
         || negb (isFunction (get service (ToString operation)))
      then throw (Thrown (JStr ("Invalid operation " +:+ dquote +:+ ToString operation
                                +:+ dquote +:+ " in " +:+ type +:+ " service")))
      else
        (* every argument after [storageOperation] and the callback *)
        let operationArgs := rest in
        mret (Some (Bound service (get service (ToString operation)) operationArgs))
  end.

(** The body handed to the funnel. *)
Definition run (b : bound) : M jsval :=
  match method b with
  | JFun f =>
      emit (Applied f (operationArgs b));;
      lift (apply_ f (service b) (operationArgs b))
  | _ => throw TypeError
  end.

(** [StorageUtil.performStorageOperation(storageOperation, _, ...rest)],
    for a call the funnel lets in. *)
Definition performStorageOperation (st : state) (storageOperation : descriptor)
  (rest : list jsval) : M jsval :=
  b ← prepare storageOperation rest;
  match b with
  | None => mret JUndefined
  | Some b =>
      match restFunnel st with
      | None => throw TypeError
      | Some f => emit (Entered f);; run b
      end
  end.

End StorageUtil.


(** ** Numerals, as the specification reads them

    A string is numeric when, after white space and at most one sign, a
    decimal digit follows; it then reads as the longest run of digits
    found there. *)

Fixpoint all_chars (p : ascii -> bool) (s : string) : bool :=
  match s with
  | String c s' => p c && all_chars p s'
  | EmptyString => true
  end.

Definition is_decimal_digit (c : ascii) : bool :=
  (48 <=? code c) && (code c <=? 57).

Definition starts_with_digit (s : string) : bool :=
  match s with
  | String c _ => is_decimal_digit c
  | EmptyString => false
  end.

Fixpoint decimal_value_from (acc : Z) (ds : string) : Z :=
  match ds with
  | String c ds' => decimal_value_from (acc * 10 + (code c - 48)) ds'
  | EmptyString => acc
  end.

Definition decimal_value (ds : string) : Z := decimal_value_from 0 ds.

Definition sign_of (negative : bool) (sign : string) : Prop :=
  (sign = "" /\ negative = false) \/ (sign = "+" /\ negative = false)
  \/ (sign = "-" /\ negative = true).

Definition reads_as (s : string) (negative : bool) (ds : string) : Prop :=
  exists ws sign rest,
    s = ws +:+ sign +:+ ds +:+ rest
    /\ all_chars is_white_space ws = true
    /\ sign_of negative sign
    /\ ds <> "" /\ all_chars is_decimal_digit ds = true
    /\ starts_with_digit rest = false.

Definition numeric (s : string) : Prop :=
  exists negative ds, reads_as s negative ds.

(** ** A platform to run the module on *)

Module Sample.

Definition blobService : gmap string jsval :=
  {[ "listContainers" := JFun 1; "host" := JStr "blob.core.windows.net" ]}.

Definition platform : Platform := {|
  NumberToString n :=
    match n with
    | NaN => "NaN"
    | Int z => pretty z
    | Infinity negative => if negative then "-Infinity" else "Infinity"
    end;
  ObjectToString _ := "[object Object]";
  cpus_length := 4;
  env := ∅;
  createFromConnectionString _ := Throw (Failure 0);
  createBlobService _ := Return blobService;
  createTableService _ := Return ∅;
  createQueueService _ := Return ∅;
  apply_ _ _ _ := Return (JStr "done");
|}.

#[export] Existing Instance platform.

(* the module once [init] has read a concurrency of 1 and a timeout of
   30000 ms *)
Definition ready : state :=
  {| restFunnel := Some (Funnel (Int 1)); operationTimeout := Some (Int 30000) |}.

(* a configuration that holds the one key *)
Definition concurrency (v : jsval) : gmap string jsval :=
  {[ CONCURRENTCY_CONFIG_KEY_NAME := v ]}.

Definition timeout (v : jsval) : gmap string jsval :=
  {[ OPERATION_TIMEOUT_CONFIG_KEY_NAME := v ]}.

Definition listContainers : descriptor :=
  DObject (StorageOperation (JStr "Blob") (JStr "listContainers")).

(* what the dispatcher binds [listContainers] to *)
Definition listContainers_bound : bound :=
  Bound blobService (JFun 1) [JNull].

End Sample.

(** ** The funnel *)

(** Modelled from the spec: the state of the gate of section 4.3, the
    calls whose body is running and those waiting for a slot.  The funnel
    itself comes from the streamline package. *)
Record gate : Type := Gate {
  executing : list bound;
  waiting : list bound;
}.

Definition idle : gate := Gate [] [].

(** Modelled from the spec: [flows.funnel] is part of the streamline
    package, whose code is not in the repository.  Section 4.3 gives its
    contract: a call acquires one of [N] slots and is suspended while none
    is free; the slot is released when the guarded body completes, whether
    it returned or threw; on a release exactly one waiter, no matter
    which, is resumed.  The calls that reach the funnel are those
    [performStorageOperation] found a method for, in a module [init] has
    made a funnel of [N] slots for. *)
Inductive step `{Platform} (st : state) (N : nat) : gate -> gate -> Prop :=
  | step_enter g d rest t b :
      restFunnel st = Some (Funnel (Int (Z.of_nat N))) ->
      prepare d rest = (t, Return (Some b)) ->
      (length (executing g) < N)%nat ->
      step st N g (Gate (b :: executing g) (waiting g))
  | step_wait g d rest t b :
      restFunnel st = Some (Funnel (Int (Z.of_nat N))) ->
      prepare d rest = (t, Return (Some b)) ->
      (N <= length (executing g))%nat ->
      step st N g (Gate (executing g) (waiting g ++ [b])%list)
  | step_leave g e1 b e2 :
      executing g = (e1 ++ b :: e2)%list ->
      waiting g = [] ->
      step st N g (Gate (e1 ++ e2)%list [])
  | step_resume g e1 b e2 w1 b' w2 :
      executing g = (e1 ++ b :: e2)%list ->
      waiting g = (w1 ++ b' :: w2)%list ->
      step st N g (Gate (b' :: e1 ++ e2)%list (w1 ++ w2)%list).

(** ** The switch of the dispatcher *)

(** [resolves type m]: [m] is the getter call that the [switch] of
    [performStorageOperation] makes for the lowercased [type]. *)
Definition resolves `{Platform} (type : string) (m : M (gmap string jsval)) : Prop :=
  (type = OperationType.Blob /\ m = getBlobService None)
  \/ (type = OperationType.Table /\ m = getTableService None)
  \/ (type = OperationType.Queue /\ m = getQueueService None).

(** ** The progress display *)

(** The module variables [cli] and [progress]; [None] is [null].  A
    progress object is known by its rank among those [cli.progress] has
    made, which [made] counts. *)
Record display : Type := {
  cli : option nat;
  progress : option nat;
  made : nat;
}.

(** What the user sees: a progress begun with its tips, a progress
    ended. *)
Inductive shown : Type :=
  | Begun (tips : jsval) (p : nat)
  | Ended (p : nat).

(** The module as loaded. *)
Definition blank : display := {| cli := None; progress := None; made := 0 |}.

(** [StorageUtil.init(azureCli)], on the variables of the display. *)
Definition init_display (azureCli : nat) (d : display) : display :=
  {| cli := Some azureCli; progress := progress d; made := made d |}.

(** [StorageUtil.endProgress()] *)
Definition endProgress (d : display) : list shown * display :=
  let t := match progress d with
           | Some p => [Ended p]
           | None => []
           end in
  (t, {| cli := cli d; progress := None; made := made d |}).

(** [StorageUtil.startProgress(tips)] *)
Definition startProgress (tips : jsval) (d : display)
  : list shown * outcome unit * display :=
  let '(t, d) := match progress d with
                 | Some _ => endProgress d
                 | None => ([], d)
                 end in
  match cli d with
  | Some _ =>
      ((t ++ [Begun tips (made d)])%list, Return tt,
       {| cli := cli d; progress := Some (made d); made := S (made d) |})
  | None => (t, Throw TypeError, d)
  end.

(** A caller's use of the display, one call after the other. *)
Inductive display_call : Type :=
  | StartProgress (tips : jsval)
  | EndProgress.

Fixpoint display_calls (cs : list display_call) (d : display)
  : list shown * display :=
  match cs with
  | [] => ([], d)
  | StartProgress tips :: cs =>
      let '(t, _, d) := startProgress tips d in
      let '(t', d) := display_calls cs d in ((t ++ t')%list, d)
  | EndProgress :: cs =>
      let '(t, d) := endProgress d in
      let '(t', d) := display_calls cs d in ((t ++ t')%list, d)
  end.

(** The progresses begun and not ended, given those that were running. *)
Fixpoint running (t : list shown) (ps : list nat) : list nat :=
  match t with
  | [] => ps
  | Begun _ p :: t => running t (ps ++ [p])%list
  | Ended p :: t => running t (filter (fun q => q <> p) ps)
  end.

(** The progress the module holds, if any. *)
Definition held (d : display) : list nat :=
  match progress d with
  | Some p => [p]
  | None => []
  end.

(** ** A platform with a connection string in its environment *)

Module Cases.

Definition devConnectionString : string := "UseDevelopmentStorage=true".

Definition devSettings : StorageServiceSettings := {|
  _name := JStr "devstoreaccount1";
  _key := JStr "devkey";
  _blobEndpointUri := JStr "http://127.0.0.1:10000";
  _tableEndpointUri := JStr "http://127.0.0.1:10002";
  _queueEndpointUri := JStr "http://127.0.0.1:10001";
|}.

Definition tableService : gmap string jsval :=
  {[ "queryTables" := JFun 2 ]}.

Definition queueService : gmap string jsval :=
  {[ "listQueues" := JFun 3 ]}.

Definition platform : Platform := {|
  NumberToString := fun n => @NumberToString Sample.platform n;
  ObjectToString _ := "[object Object]";
  cpus_length := 2;
  env := {[ ENV_CONNECTIONSTRING_NAME := devConnectionString ]};
  createFromConnectionString cs :=
    if String.eqb cs devConnectionString then Return devSettings
    else Throw (Failure 7);
  createBlobService _ := Return Sample.blobService;
  createTableService _ := Return tableService;
  createQueueService _ := Return queueService;
  apply_ f _ args :=
    if (f =? 1)%nat then Return (JStr "containers") else Throw (Failure 9);
|}.

End Cases.

(** * The test support

    [EnvironmentDownloader], which fetches the credentials the acceptance
    tests run with, and the command builder of the storage tests. *)

(** A call that returns, or throws [new Error(message)]. *)
Inductive result (A : Type) : Type :=
  | Ok (a : A)
  | Error (message : string).
Arguments Ok {A} a.
Arguments Error {A} message.

(** [!process.env.NAME] *)
Definition unset `{Platform} (name : string) : bool := no_string (env !! name).

(** [ensureEnvironment()] *)
Definition ensureEnvironment `{Platform} : result unit :=
  if unset "AZURE_TEST_ENVIRONMENT" then
    Error "Please specify the environment to run tests in using the AZURE_TEST_ENVIRONMENT environment variable"
  else if unset "AZURE_STORAGE_ACCOUNT" then
    Error "Please specify the storage account containing management credentials in the AZURE_STORAGE_ACCOUNT environment variable"
  else if unset "AZURE_STORAGE_ACCESS_KEY" then
    Error "Please specify the access key for the storage account containing management credentials in the AZURE_STORAGE_ACCESS_KEY environment variable"
  else Ok tt.

(** What the downloader takes from Node. *)
Class Files : Type := {
  (* fs.existsSync *)
  existsSync : string -> bool;
  (* path.resolve *)
  resolve : list string -> string;
}.

(** The character class [[ -.]]: from the space to the full stop. *)
Definition in_class (c : ascii) : bool := (32 <=? code c) && (code c <=? 46).

Definition outside (c : ascii) : bool := negb (in_class c).

(** [s.replace(/[ -.]/, '')]: without the [g] flag, the first match
    only. *)
Fixpoint replace_first (s : string) : string :=
  match s with
  | String c s' => if in_class c then s' else String c (replace_first s')
  | EmptyString => EmptyString
  end.

(** [fullSettingsFilePath(settingsName)], on a downloader whose [path] is
    [self]. *)
Definition fullSettingsFilePath `{Files} (self : string) (settingsName : string)
  : string :=
  resolve [self; settingsName +:+ ".publishsettings"].

(** The method [getPublishSettings] hands the callback over to, with the
    name it passes. *)
Inductive handed : Type :=
  | GetPublishSettingsFromCache (settingsName : string)
  | DownloadPublishSettings (settingsName : string).

(** [getPublishSettings(settingsName, callback)] *)
Definition getPublishSettings `{Files} (self : string) (settingsName : string)
  : handed :=
  let settingsName := replace_first settingsName in
  if existsSync (fullSettingsFilePath self settingsName)
  then GetPublishSettingsFromCache settingsName
  else DownloadPublishSettings settingsName.

(** What xml2js, with the defaults of its version 0.2, makes of a
    document: an element is an object that has [$], its attributes, when
    it carries any, and under the name of each kind of child it has the
    array of those children. *)
Record subscription : Type := {
  subscription_attributes : option (gmap string jsval);
}.

Record profile : Type := {
  profile_attributes : option (gmap string jsval);
  Subscription : option (list subscription);
}.

Record publishData : Type := {
  PublishProfile : option (list profile);
}.

(** An element of [results]. *)
Record setting : Type := {
  endpoint : jsval;
  subscriptionId : jsval;
  subscriptionName : jsval;
  path : string;
}.

(** The body of [profile.Subscription.forEach]; [None] is the TypeError
    of a property read off [undefined]. *)
Definition subscription_setting (endpoint : jsval) (fullpath : string)
    (s : subscription) : option setting :=
  attributes ← subscription_attributes s;
  Some {| endpoint := endpoint;
          subscriptionId := get attributes "Id";
          subscriptionName := get attributes "Name";
          path := fullpath |}.

(** The body of [result.PublishData.PublishProfile.forEach]. *)
Definition profile_settings (fullpath : string) (p : profile)
  : option (list setting) :=
  attributes ← profile_attributes p;
  let endpoint := get attributes "Url" in
  subscriptions ← Subscription p;
  mapM (subscription_setting endpoint fullpath) subscriptions.

(** [results], once both loops of [parsePublishSettings] are through and
    the callback is about to get them; the argument is
    [result.PublishData], and [None] is a TypeError thrown on the way. *)
Definition settings_of (fullpath : string) (PublishData : option publishData)
  : option (list setting) :=
  data ← PublishData;
  profiles ← PublishProfile data;
  each ← mapM (profile_settings fullpath) profiles;
  Some (concat each).

(** ** The command builder of the storage tests *)

Fixpoint trim_right (s : string) : string :=
  match s with
  | String c s' =>
      match trim_right s' with
      | EmptyString => if is_white_space c then EmptyString else String c EmptyString
      | t => String c t
      end
  | EmptyString => EmptyString
  end.

(** [String.prototype.trim] *)
Definition trim (s : string) : string := trim_right (trim_left s).

(** [s.split(sep)] for a separator of one character. *)
Fixpoint split_on (sep : ascii) (s : string) : list string :=
  match s with
  | String c s' =>
      if Ascii.eqb c sep then EmptyString :: split_on sep s'
      else match split_on sep s' with
           | h :: t => String c h :: t
           | [] => [String c EmptyString]
           end
  | EmptyString => [EmptyString]
  end.

(** [a.join(sep)] *)
Fixpoint join_with (sep : string) (l : list string) : string :=
  match l with
  | [] => EmptyString
  | [s] => s
  | s :: l => s +:+ sep +:+ join_with sep l
  end.

(** [String.prototype.toStorageCmd] *)
Definition toStorageCmd (this : string) : list string :=
  let azurejs := "cli.js" in
  let storageCmd := "node " +:+ azurejs +:+ " storage " in
  let options := "--json" in
  let self := trim this in
  let cmds := storageCmd in
  let cmds := if (0 <? String.length self)%nat then cmds +:+ self else cmds in
  let cmds := split_on " " cmds in
  (cmds ++ [options])%list.

(** ** Inputs for the test support *)

Module Fixture.

(* the sample platform, with another environment *)
Definition with_env (e : gmap string string) : Platform := {|
  NumberToString := @NumberToString Sample.platform;
  ObjectToString := @ObjectToString Sample.platform;
  cpus_length := 4;
  env := e;
  createFromConnectionString := @createFromConnectionString Cases.platform;
  createBlobService := @createBlobService Sample.platform;
  createTableService := @createTableService Sample.platform;
  createQueueService := @createQueueService Sample.platform;
  apply_ := @apply_ Sample.platform;
|}.

Definition test_environment : gmap string string :=
  {[ "AZURE_TEST_ENVIRONMENT" := "production";
     "AZURE_STORAGE_ACCOUNT" := "credentials";
     "AZURE_STORAGE_ACCESS_KEY" := "c2VjcmV0" ]}.

(* an environment whose connection string the parser refuses *)
Definition bad_connection_string : gmap string string :=
  {[ ENV_CONNECTIONSTRING_NAME := "AccountName" ]}.

Definition cached : string := "/tmp/credentials/cached.publishsettings".

Definition files : Files := {|
  existsSync p := String.eqb p cached;
  resolve l := join_with "/" l;
|}.

Definition subscription_of (id name : string) : subscription :=
  {| subscription_attributes := Some {[ "Id" := JStr id; "Name" := JStr name ]} |}.

Definition management : profile := {|
  profile_attributes := Some {[ "Url" := JStr "https://management.core.windows.net/" ]};
  Subscription := Some [subscription_of "1" "first"; subscription_of "2" "second"];
|}.

(* a profile that has its attributes and no subscription *)
Definition bare : profile := {|
  profile_attributes := Some {[ "Url" := JStr "https://management.example.net/" ]};
  Subscription := None;
|}.

Definition published : publishData :=
  {| PublishProfile := Some [management; bare] |}.

End Fixture.

(** * Properties *)

(** ** Numbers *)

Lemma round_to_double_0 : round_to_double 0 = 0.
Proof. reflexivity. Qed.

Lemma round_to_double_pos m : 0 < m -> 0 < round_to_double m.
Proof.
  intros Hm. unfold round_to_double.
  destruct (Z.leb_spec (Z.log2 m - 52) 0) as [|He]; [exact Hm|].
  set (e := Z.log2 m - 52) in *.
  assert (Hq : 0 < Z.shiftr m e).
  { rewrite Z.shiftr_div_pow2 by lia.
    apply Z.div_str_pos. split; [apply Z.pow_pos_nonneg; lia|].
    transitivity (2 ^ Z.log2 m).
    - apply Z.pow_le_mono_r; lia.
    - apply Z.log2_spec, Hm. }
  rewrite Z.shiftl_mul_pow2 by lia.
  apply Z.mul_pos_pos; [|apply Z.pow_pos_nonneg; lia].
  destruct (_ || _); lia.
Qed.

Lemma of_integer_not_NaN z : of_integer z <> NaN.
Proof. unfold of_integer. by destruct (_ <=? _). Qed.

Lemma of_integer_negative z : num_lt (of_integer z) (Int 0) = (z <? 0).
Proof.
  unfold of_integer. destruct (_ <=? _); [done|]. simpl.
  destruct (Z.abs_spec z) as [[Hz Ha]|[Hz Ha]]; rewrite Ha.
  - destruct (Z.eq_dec z 0) as [->|]; [done|].
    pose proof (round_to_double_pos z). rewrite Z.sgn_pos by lia. lia.
  - pose proof (round_to_double_pos (- z)). rewrite Z.sgn_neg by lia. lia.
Qed.

Lemma of_integer_zero z : num_eq (of_integer z) (Int 0) = (z =? 0).
Proof.
  unfold of_integer. destruct (Z.eq_dec z 0) as [->|Hz]; [done|].
  destruct (_ <=? _); simpl; [lia|].
  destruct (Z.abs_spec z) as [[? Ha]|[? Ha]]; rewrite Ha.
  - pose proof (round_to_double_pos z). rewrite Z.sgn_pos by lia. lia.
  - pose proof (round_to_double_pos (- z)). rewrite Z.sgn_neg by lia. lia.
Qed.

(** Below [2 ^ 53] every integer is a Number. *)
Lemma of_integer_exact z : Z.abs z < 2 ^ 53 -> of_integer z = Int z.
Proof.
  intros Hz. unfold of_integer, round_to_double.
  assert (Z.log2 (Z.abs z) - 52 <= 0) as He.
  { destruct (Z.eq_dec z 0) as [->|]; [done|].
    assert (Z.log2 (Z.abs z) < 53) by (apply Z.log2_lt_pow2; lia). lia. }
  destruct (Z.leb_spec (Z.log2 (Z.abs z) - 52) 0); [|lia].
  destruct (Z.leb_spec (2 ^ 1024) (Z.abs z)) as [Hbig|_].
  - assert (2 ^ 53 < 2 ^ 1024) by (apply Z.pow_lt_mono_r; lia). lia.
  - f_equal. rewrite Z.mul_comm. apply Z.abs_sgn.
Qed.

(** ** Strings *)

Lemma append_String c s1 s2 : String c s1 +:+ s2 = String c (s1 +:+ s2).
Proof. reflexivity. Qed.

Lemma append_empty s : "" +:+ s = s.
Proof. reflexivity. Qed.

Lemma digit_not_white c : is_decimal_digit c = true -> is_white_space c = false.
Proof.
  unfold is_decimal_digit, is_white_space. generalize (code c) as n. lia.
Qed.

Ltac split_comparisons :=
  repeat (match goal with
          | |- context [Z.leb ?a ?b] => destruct (Z.leb_spec a b)
          | |- context [Z.ltb ?a ?b] => destruct (Z.ltb_spec a b)
          end; cbn [andb orb negb]).

Lemma radix_digit_decimal c :
  radix_digit 10 c = if is_decimal_digit c then Some (code c - 48) else None.
Proof.
  unfold radix_digit, digit_of, is_decimal_digit.
  generalize (code c) as n. intros n.
  split_comparisons; try done; exfalso; lia.
Qed.

Lemma trim_left_blank ws s :
  all_chars is_white_space ws = true -> trim_left (ws +:+ s) = trim_left s.
Proof.
  induction ws as [|c ws IH]; [done|].
  rewrite append_String. cbn [all_chars trim_left].
  intros [-> ?]%andb_true_iff. auto.
Qed.

Lemma trim_left_split s :
  exists ws, s = ws +:+ trim_left s /\ all_chars is_white_space ws = true.
Proof.
  induction s as [|c s [ws [IH1 IH2]]]; cbn [trim_left].
  - exists "". split; reflexivity.
  - destruct (is_white_space c) eqn:Hc.
    + exists (String c ws). rewrite append_String. cbn [all_chars]. rewrite Hc.
      split; [by f_equal|done].
    + exists "". split; reflexivity.
Qed.

Lemma trim_left_head s :
  match trim_left s with
  | String c _ => is_white_space c = false
  | EmptyString => True
  end.
Proof.
  induction s as [|c s IH]; simpl; [done|].
  destruct (is_white_space c) eqn:Hc; [exact IH|exact Hc].
Qed.

Lemma leading_digits_run ds rest :
  all_chars is_decimal_digit ds = true ->
  starts_with_digit rest = false ->
  exists l, leading_digits 10 (ds +:+ rest) = l
            /\ length l = String.length ds
            /\ forall acc, fold_left (fun acc d => acc * 10 + d) l acc
                           = decimal_value_from acc ds.
Proof.
  intros Hds Hrest. induction ds as [|c ds IH].
  - exists []. rewrite append_empty. split; [|done].
    destruct rest as [|c rest]; [done|].
    cbn [leading_digits starts_with_digit] in *.
    by rewrite radix_digit_decimal, Hrest.
  - cbn [all_chars] in Hds. apply andb_true_iff in Hds as [Hc Hds].
    destruct (IH Hds) as (l & Hl & Hlen & Hval).
    exists ((code c - 48) :: l). rewrite append_String.
    cbn [leading_digits]. rewrite radix_digit_decimal, Hc, Hl.
    split; [done|]. split; [cbn [length String.length]; by rewrite Hlen|].
    intros acc. cbn [fold_left decimal_value_from]. apply Hval.
Qed.

Lemma leading_digits_split s :
  exists ds rest,
    s = ds +:+ rest
    /\ all_chars is_decimal_digit ds = true
    /\ starts_with_digit rest = false
    /\ length (leading_digits 10 s) = String.length ds.
Proof.
  induction s as [|c s (ds & rest & Hs & Hds & Hrest & Hlen)].
  - by exists "", "".
  - cbn [leading_digits]. rewrite radix_digit_decimal.
    destruct (is_decimal_digit c) eqn:Hc.
    + exists (String c ds), rest. rewrite append_String.
      cbn [all_chars length String.length]. rewrite Hc, Hlen, <- Hs. done.
    + exists "", (String c s). rewrite append_empty.
      cbn [starts_with_digit]. by rewrite Hc.
Qed.

Section Numerals.
Context `{Platform}.

(** [parseInt] in radix ten: white space, a sign, then digits. *)
Lemma parseInt_10 v :
  parseInt v 10 =
  let str := trim_left (ToString v) in
  let negative := match str with
                  | String c _ => Ascii.eqb c "-"
                  | EmptyString => false
                  end in
  let str := match str with
             | String c rest =>
                 if Ascii.eqb c "+" || Ascii.eqb c "-" then rest else str
             | EmptyString => str
             end in
  match leading_digits 10 str with
  | [] => NaN
  | ds => of_integer (if negative then - digits_value 10 ds
                      else digits_value 10 ds)
  end.
Proof.
  unfold parseInt. cbv zeta.
  match goal with
  | |- _ = match leading_digits 10 ?b with _ => _ end => generalize b
  end.
  by intros [|? [|? ?]].
Qed.

(** What [parseInt] makes of a numeral, whatever follows it. *)
Lemma parseInt_reads v negative ds :
  reads_as (ToString v) negative ds ->
  parseInt v 10
  = of_integer (if negative then - decimal_value ds else decimal_value ds).
Proof.
  intros (ws & sign & rest & Hs & Hws & Hsign & Hne & Hds & Hrest).
  rewrite parseInt_10, Hs, trim_left_blank by done.
  destruct (leading_digits_run ds rest Hds Hrest) as (l & Hl & Hlen & Hval).
  assert (Hl0 : l <> []).
  { destruct ds; [done|]. by destruct l. }
  assert (Hv : digits_value 10 l = decimal_value ds) by apply Hval.
  destruct ds as [|c ds]; [done|]. simpl in Hds.
  apply andb_true_iff in Hds as [Hc Hds].
  destruct Hsign as [[-> ->]|[[-> ->]|[-> ->]]]; simpl.
  - rewrite (digit_not_white c Hc).
    assert (Ascii.eqb c "+" = false) as ->.
    { apply Ascii.eqb_neq. by intros ->. }
    assert (Ascii.eqb c "-" = false) as ->.
    { apply Ascii.eqb_neq. by intros ->. }
    simpl. simpl in Hl. rewrite Hl, <- Hv. by destruct l.
  - simpl in Hl. rewrite Hl, <- Hv. by destruct l.
  - simpl in Hl. rewrite Hl, <- Hv. by destruct l.
Qed.

(** [parseInt] yields NaN on the strings that are not numeric, and on no
    other. *)
Lemma parseInt_NaN v : parseInt v 10 = NaN <-> ~ numeric (ToString v).
Proof.
  split.
  - intros Hnan (negative & ds & Hr).
    rewrite (parseInt_reads _ _ _ Hr) in Hnan. by apply of_integer_not_NaN in Hnan.
  - intros Hnot. rewrite parseInt_10. simpl.
    destruct (trim_left_split (ToString v)) as (ws & Hs & Hws).
    pose proof (trim_left_head (ToString v)) as Hhead.
    set (str := trim_left (ToString v)) in *.
    set (body := match str with
                 | String c rest =>
                     if Ascii.eqb c "+" || Ascii.eqb c "-" then rest else str
                 | EmptyString => str
                 end).
    destruct (leading_digits_split body) as (ds & rest & Hb & Hds & Hrest & Hlen).
    destruct (leading_digits 10 body) as [|d l] eqn:Hl; [done|].
    exfalso. apply Hnot.
    assert (ds <> "") by (intros ->; done).
    destruct str as [|c str']; [subst body; simpl in Hl; done|].
    subst body. simpl in Hb.
    destruct (Ascii.eqb_spec c "+") as [->|Hplus]; simpl in Hb.
    { exists false, ds, ws, "+", rest. rewrite Hs, Hb. repeat split; try done.
      right; left; done. }
    destruct (Ascii.eqb_spec c "-") as [->|Hminus]; simpl in Hb.
    { exists true, ds, ws, "-", rest. rewrite Hs, Hb. repeat split; try done.
      right; right; done. }
    exists false, ds, ws, "", rest. rewrite Hs, Hb. repeat split; try done.
    left; done.
Qed.

End Numerals.

(** ** Configuration *)

Section Configuration.
Context `{Platform}.

Lemma parseInt_undefined : parseInt JUndefined 10 = NaN.
Proof. rewrite parseInt_10. reflexivity. Qed.

Lemma get_absent (o : gmap string jsval) k : o !! k = None -> get o k = JUndefined.
Proof. unfold get. by intros ->. Qed.

(** A Number is NaN, at most zero, or above zero. *)
Lemma num_trichotomy n :
  n = NaN \/ num_le n (Int 0) = true \/ num_gt n (Int 0) = true.
Proof.
  destruct n as [|z|[]]; auto. right.
  unfold num_le, num_gt, num_lt, num_eq.
  destruct (Z.ltb_spec z 0), (Z.eqb_spec z 0), (Z.ltb_spec 0 z); auto; lia.
Qed.

Lemma num_le_gt n : num_le n (Int 0) = false -> n <> NaN -> num_gt n (Int 0) = true.
Proof.
  intros Hle Hn. destruct (num_trichotomy n) as [?|[?|?]]; congruence.
Qed.

(** C3. [getRestConcurrency] falls back on the CPU count, times one, when
    the concurrency key is absent, when its value is not numeric and when
    it parses to zero; any other Number the key parses to, a negative one
    included, is returned as it is. *)
Theorem getRestConcurrency_cases (cfg : gmap string jsval) :
  let v := get cfg CONCURRENTCY_CONFIG_KEY_NAME in
  let fallback := Int (Z.of_N cpus_length * 1) in
  (cfg !! CONCURRENTCY_CONFIG_KEY_NAME = None ->
   getRestConcurrency cfg = fallback)
  /\ (~ numeric (ToString v) -> getRestConcurrency cfg = fallback)
  /\ (parseInt v 10 = Int 0 -> getRestConcurrency cfg = fallback)
  /\ (forall n, parseInt v 10 = n -> n <> NaN -> n <> Int 0 ->
      getRestConcurrency cfg = n).
Proof.
  intros v fallback. unfold getRestConcurrency, getDefaultRestConcurrency.
  cbv zeta. fold v. fold fallback. split; [|split; [|split]].
  - intros Habs. subst v. by rewrite (get_absent _ _ Habs), parseInt_undefined.
  - intros Hnot. apply parseInt_NaN in Hnot. by rewrite Hnot.
  - by intros ->.
  - intros n -> Hnan Hzero.
    destruct n as [|z|b]; cbn [isNaN num_eq orb]; [done| |done].
    destruct (Z.eqb_spec z 0); [congruence|done].
Qed.

(** C8. [getRestOperationTimeout] returns [null] when the timeout key is
    absent, when its value is not numeric and when it parses to a Number
    that is zero or less; otherwise it returns the Number parsed, which is
    above zero. *)
Theorem getRestOperationTimeout_cases (cfg : gmap string jsval) :
  let v := get cfg OPERATION_TIMEOUT_CONFIG_KEY_NAME in
  (cfg !! OPERATION_TIMEOUT_CONFIG_KEY_NAME = None ->
   getRestOperationTimeout cfg = None)
  /\ (~ numeric (ToString v) -> getRestOperationTimeout cfg = None)
  /\ (forall n, parseInt v 10 = n -> num_le n (Int 0) = true ->
      getRestOperationTimeout cfg = None)
  /\ (forall n, parseInt v 10 = n -> n <> NaN -> num_le n (Int 0) = false ->
      getRestOperationTimeout cfg = Some n /\ num_gt n (Int 0) = true).
Proof.
  intros v. unfold getRestOperationTimeout. cbv zeta. fold v.
  split; [|split; [|split]].
  - intros Habs. subst v. by rewrite (get_absent _ _ Habs), parseInt_undefined.
  - intros Hnot. apply parseInt_NaN in Hnot. by rewrite Hnot.
  - intros n -> Hle. by rewrite Hle, Bool.orb_true_r.
  - intros n -> Hnan Hle. rewrite Hle. split; [|by apply num_le_gt].
    by destruct n.
Qed.

(** C2, as the code has it.  On a host with at least one CPU, and unless
    the concurrency key parses to a Number below zero, the limit
    [getRestConcurrency] returns is at least one: the key's own positive
    value, or the CPU count. *)
Theorem getRestConcurrency_at_least_one (cfg : gmap string jsval) :
  (1 <= cpus_length)%N ->
  num_lt (parseInt (get cfg CONCURRENTCY_CONFIG_KEY_NAME) 10) (Int 0) = false ->
  num_le (Int 1) (getRestConcurrency cfg) = true.
Proof.
  intros Hcpu Hneg. unfold getRestConcurrency, getDefaultRestConcurrency.
  cbv zeta. destruct (parseInt _ 10) as [|z|[]]; cbn [isNaN num_eq orb] in *.
  - unfold num_le, num_lt, num_eq. destruct (Z.ltb_spec 1 (Z.of_N cpus_length * 1)),
      (Z.eqb_spec 1 (Z.of_N cpus_length * 1)); auto; lia.
  - unfold num_lt in Hneg. destruct (Z.eqb_spec z 0).
    + unfold num_le, num_lt, num_eq. destruct (Z.ltb_spec 1 (Z.of_N cpus_length * 1)),
        (Z.eqb_spec 1 (Z.of_N cpus_length * 1)); auto; lia.
    + unfold num_le, num_lt, num_eq.
      destruct (Z.ltb_spec 1 z), (Z.eqb_spec 1 z); auto; lia.
  - done.
  - done.
Qed.

(** The two resolvers on a key that holds a numeral: its sign and digits
    decide, whatever follows them. *)
Lemma getRestConcurrency_numeral (cfg : gmap string jsval) negative ds :
  reads_as (ToString (get cfg CONCURRENTCY_CONFIG_KEY_NAME)) negative ds ->
  let z := if negative then - decimal_value ds else decimal_value ds in
  getRestConcurrency cfg
  = if z =? 0 then Int (Z.of_N cpus_length * 1) else of_integer z.
Proof.
  intros Hr z. unfold getRestConcurrency, getDefaultRestConcurrency. cbv zeta.
  rewrite (parseInt_reads _ _ _ Hr). fold z.
  rewrite of_integer_zero.
  pose proof (of_integer_not_NaN z). by destruct (of_integer z).
Qed.

Lemma getRestOperationTimeout_numeral (cfg : gmap string jsval) negative ds :
  reads_as (ToString (get cfg OPERATION_TIMEOUT_CONFIG_KEY_NAME)) negative ds ->
  let z := if negative then - decimal_value ds else decimal_value ds in
  getRestOperationTimeout cfg = if z <=? 0 then None else Some (of_integer z).
Proof.
  intros Hr z. unfold getRestOperationTimeout. cbv zeta.
  rewrite (parseInt_reads _ _ _ Hr). fold z.
  unfold num_le. rewrite of_integer_zero, of_integer_negative.
  pose proof (of_integer_not_NaN z).
  destruct (of_integer z); [done|..];
    destruct (Z.ltb_spec z 0), (Z.eqb_spec z 0), (Z.leb_spec z 0);
    done || lia.
Qed.

End Configuration.

(** ** The timeout injection *)

(** What [setOperationTimeout] does, by the property its guard reads:
    [timeoutintervalInMs], which is not the property it writes. *)
Lemma setOperationTimeout_guard st (options : gmap string jsval) T :
  operationTimeout st = Some (Int T) -> 0 < T ->
  setOperationTimeout st options
  = if bool_decide (get options "timeoutintervalInMs" = JUndefined)
    then <["timeoutIntervalInMs" := JNum (Int T)]> options
    else options.
Proof.
  intros Hst HT. unfold setOperationTimeout. rewrite Hst.
  cbn [isNaN negb num_gt num_lt]. destruct (Z.ltb_spec 0 T); [|lia].
  by rewrite !andb_true_r.
Qed.

(** Options that carry neither spelling get the override. *)
Lemma setOperationTimeout_injects st (options : gmap string jsval) T :
  operationTimeout st = Some (Int T) -> 0 < T ->
  options !! "timeoutintervalInMs" = None ->
  get (setOperationTimeout st options) "timeoutIntervalInMs" = JNum (Int T).
Proof.
  intros Hst HT Habs. rewrite (setOperationTimeout_guard _ _ T) by done.
  rewrite (get_absent _ _ Habs), bool_decide_eq_true_2 by done.
  unfold get. by rewrite lookup_insert_eq.
Qed.

(** A timeout the caller set under the documented name is not seen by
    the guard, and is replaced. *)
Lemma setOperationTimeout_overwrites st (options : gmap string jsval) T v :
  operationTimeout st = Some (Int T) -> 0 < T ->
  options !! "timeoutintervalInMs" = None ->
  options !! "timeoutIntervalInMs" = Some v ->
  get (setOperationTimeout st options) "timeoutIntervalInMs" = JNum (Int T).
Proof. intros ? ? ? _. by apply setOperationTimeout_injects. Qed.

(** C1, at the input where the code departs from it: the caller's options
    carry [timeoutIntervalInMs = 5000], the override is 30000, and the
    options come back with 30000. *)
Theorem setOperationTimeout_overwrites_caller_timeout :
  let st := {| restFunnel := None; operationTimeout := Some (Int 30000) |} in
  let options : gmap string jsval := {[ "timeoutIntervalInMs" := JNum (Int 5000) ]} in
  get options "timeoutIntervalInMs" = JNum (Int 5000)
  /\ get (setOperationTimeout st options) "timeoutIntervalInMs" = JNum (Int 30000).
Proof. split; by vm_compute. Qed.

(** C10. [setOperationTimeout] leaves every property of [options] other
    than [timeoutIntervalInMs] as it found it, present or absent. *)
Theorem setOperationTimeout_frame st (options : gmap string jsval) (k : string) :
  k <> "timeoutIntervalInMs" ->
  setOperationTimeout st options !! k = options !! k.
Proof.
  intros Hk. unfold setOperationTimeout.
  destruct (operationTimeout st) as [timeout|]; [|done].
  destruct (_ && _); [|done]. by rewrite lookup_insert_ne.
Qed.

(** ** The dispatcher *)

Section Dispatcher.
Context `{Platform}.

Lemma bind_trace {A B} (m : M A) (k : A -> M B) t r :
  m ≫= k = (t, Return r) ->
  exists t1 a t2, m = (t1, Return a) /\ k a = (t2, Return r) /\ t = (t1 ++ t2)%list.
Proof.
  unfold mbind, M_bind. destruct m as [t1 [a|e]]; [|done].
  destruct (k a) as [t2 r'] eqn:Hk. intros [= <- <-]. by exists t1, a, t2.
Qed.

(** A service that was made left a trace. *)
Lemma getBlobService_trace cs t svc :
  getBlobService cs = (t, Return svc) -> t <> [].
Proof.
  unfold getBlobService. intros (t1 & ss & t2 & _ & Hk & ->)%bind_trace.
  destruct ss; apply bind_trace in Hk as (? & [] & ? & [= <-] & _ & ->);
    by destruct t1.
Qed.

Lemma getTableService_trace cs t svc :
  getTableService cs = (t, Return svc) -> t <> [].
Proof.
  unfold getTableService. intros (t1 & ss & t2 & _ & Hk & ->)%bind_trace.
  destruct ss; apply bind_trace in Hk as (? & [] & ? & [= <-] & _ & ->);
    by destruct t1.
Qed.

Lemma getQueueService_trace cs t svc :
  getQueueService cs = (t, Return svc) -> t <> [].
Proof.
  unfold getQueueService. intros (t1 & ss & t2 & _ & Hk & ->)%bind_trace.
  destruct ss; apply bind_trace in Hk as (? & [] & ? & [= <-] & _ & ->);
    by destruct t1.
Qed.

(** The kind the dispatcher switches on, when [type || ''] is a string:
    [type] is one, or is missing or falsy and counts as the empty one. *)
Lemma kind_of_string (o : gmap string jsval) s :
  js_or (get o "type") (JStr "") = JStr s ->
  (match js_or (get o "type") (JStr "") with
   | JStr s => mret (toLowerCase s)
   | _ => throw TypeError
   end : M string) = mret (toLowerCase s).
Proof. by intros ->. Qed.

(** On an object the dispatcher returns only after it has made a
    service. *)
Lemma prepare_object_trace o rest t r :
  prepare (DObject o) rest = (t, Return r) -> t <> [] /\ is_Some r.
Proof.
  unfold prepare. intros (t1 & type & t2 & Htype & Hk & ->)%bind_trace.
  apply bind_trace in Hk as (t3 & svc & t4 & Hsvc & Hk & ->).
  assert (t3 <> []) as Ht3.
  { repeat case_match; eauto using getBlobService_trace,
      getTableService_trace, getQueueService_trace. }
  split; [destruct t1, t3; done|].
  destruct (_ || _); [done|]. injection Hk as _ <-. eauto.
Qed.

(** C7. On a [null] descriptor [performStorageOperation] does nothing:
    it calls nothing, throws nothing and returns [undefined], whatever
    the other arguments. *)
Theorem performStorageOperation_null st (rest : list jsval) :
  performStorageOperation st DNull rest = ([], Return JUndefined).
Proof. reflexivity. Qed.

(** C9. Only [null] is short-circuited.  On [undefined] the dispatcher
    throws a TypeError, reading [type] off it, before it has done
    anything; and on an object the call is never the silent return of
    [undefined] that [null] gets. *)
Theorem performStorageOperation_undefined st (rest : list jsval) :
  performStorageOperation st DUndefined rest = ([], Throw TypeError)
  /\ forall o, performStorageOperation st (DObject o) rest <> ([], Return JUndefined).
Proof.
  split; [reflexivity|]. intros o. unfold performStorageOperation.
  intros (t1 & b & t2 & Hp & _ & Ht)%bind_trace.
  apply prepare_object_trace in Hp as [Hne _]. by destruct t1.
Qed.

(** C4, as the code has it.  A descriptor whose [type] is a string (the
    empty one when [type] is missing or falsy) that, lowercased, is none
    of [blob], [queue] and [table] makes [performStorageOperation] throw
    the string [Invalid azure operation type : ] followed by the type in
    lower case, not as it was given; nothing has been called by then. *)
Theorem performStorageOperation_invalid_type st (o : gmap string jsval)
    (rest : list jsval) (s : string) :
  js_or (get o "type") (JStr "") = JStr s ->
  toLowerCase s <> OperationType.Blob ->
  toLowerCase s <> OperationType.Queue ->
  toLowerCase s <> OperationType.Table ->
  performStorageOperation st (DObject o) rest
  = ([], Throw (Thrown (JStr ("Invalid azure operation type : " +:+ toLowerCase s)))).
Proof.
  intros Htype Hb Hq Ht. unfold performStorageOperation, prepare.
  rewrite (kind_of_string _ _ Htype).
  unfold mbind, mret, M_bind, M_ret.
  apply String.eqb_neq in Hb, Hq, Ht. by rewrite Hb, Hq, Ht.
Qed.

(** C5. With a [type] that lowercases to [blob], [table] or [queue] and
    a service made for it, an [operation] (the empty string when it is
    missing or falsy) that names no function of the service makes
    [performStorageOperation] throw the string
    [Invalid operation "<operation>" in <type> service]; the method is not
    called and the funnel not entered. *)
Theorem performStorageOperation_invalid_operation st (o : gmap string jsval)
    (rest : list jsval) (s : string) (t : list event) (svc : gmap string jsval) :
  let type := toLowerCase s in
  let operation := ToString (js_or (get o "operation") (JStr "")) in
  js_or (get o "type") (JStr "") = JStr s ->
  (type = OperationType.Blob /\ getBlobService None = (t, Return svc))
  \/ (type = OperationType.Table /\ getTableService None = (t, Return svc))
  \/ (type = OperationType.Queue /\ getQueueService None = (t, Return svc)) ->
  isFunction (get svc operation) = false ->
  performStorageOperation st (DObject o) rest
  = (t, Throw (Thrown (JStr ("Invalid operation " +:+ dquote +:+ operation
                             +:+ dquote +:+ " in " +:+ type +:+ " service")))).
Proof.
  intros type operation Htype Hsvc Hfun. unfold performStorageOperation, prepare.
  rewrite (kind_of_string _ _ Htype). fold type. fold operation.
  unfold mbind, mret, M_bind, M_ret.
  destruct Hsvc as [[Hk Hsvc]|[[Hk Hsvc]|[Hk Hsvc]]]; rewrite Hk;
    simpl (String.eqb _ _); rewrite Hsvc, Hfun, orb_true_r;
    unfold throw; cbv beta iota zeta; cbn [app]; by rewrite app_nil_r.
Qed.

End Dispatcher.

(** ** The funnel *)

Section Funnel.
Context `{Platform}.

Lemma step_bound st N g g' :
  step st N g g' ->
  (length (executing g) <= N)%nat -> (length (executing g') <= N)%nat.
Proof.
  intros [g0 d rest t b _ _ Hfree|g0 d rest t b _ _ _
          |g0 e1 b e2 He _|g0 e1 b e2 w1 b' w2 He _]; cbn [executing length].
  - lia.
  - done.
  - rewrite He, !length_app. cbn [length]. lia.
  - rewrite He, !length_app. cbn [length]. lia.
Qed.

(** C6. Whatever calls arrive and in whatever order they are let in and
    complete, a funnel of [N] slots never has more than [N] of them
    running their body. *)
Theorem funnel_bounds_executing st (N : nat) (g : gate) :
  rtc (step st N) idle g -> (length (executing g) <= N)%nat.
Proof.
  revert g. apply rtc_ind_r.
  - cbn. lia.
  - intros g1 g2 _ Hstep IH. by eapply step_bound.
Qed.

End Funnel.

(** ** The scenarios of the specification, on the sample platform *)

Section Scenarios.
Import Sample.

(** Unset, and four CPUs: 4.  "0": 4.  "8": 8. *)
Example concurrency_unset : getRestConcurrency ∅ = Int 4.
Proof. by vm_compute. Qed.

Example concurrency_zero : getRestConcurrency (concurrency (JStr "0")) = Int 4.
Proof. by vm_compute. Qed.

Example concurrency_eight : getRestConcurrency (concurrency (JStr "8")) = Int 8.
Proof. by vm_compute. Qed.

Example concurrency_number : getRestConcurrency (concurrency (JNum (Int 8))) = Int 8.
Proof. by vm_compute. Qed.

Example concurrency_with_unit : getRestConcurrency (concurrency (JStr " 16 calls")) = Int 16.
Proof. by vm_compute. Qed.

Example init_from_config :
  init (<[OPERATION_TIMEOUT_CONFIG_KEY_NAME := JStr "30000"]> (concurrency (JStr "8")))
  = {| restFunnel := Some (Funnel (Int 8)); operationTimeout := Some (Int 30000) |}.
Proof. by vm_compute. Qed.

Lemma getRestConcurrency_cases_witness :
  getRestConcurrency ∅ = Int 4
  /\ getRestConcurrency (concurrency (JStr "many")) = Int 4
  /\ getRestConcurrency (concurrency (JStr "0")) = Int 4
  /\ getRestConcurrency (concurrency (JStr "8")) = Int 8
  /\ getRestConcurrency (concurrency (JStr "-3")) = Int (-3).
Proof.
  repeat apply conj.
  - exact (proj1 (getRestConcurrency_cases ∅) eq_refl).
  - refine (proj1 (proj2 (getRestConcurrency_cases (concurrency (JStr "many")))) _).
    apply parseInt_NaN. vm_compute. reflexivity.
  - refine (proj1 (proj2 (proj2 (getRestConcurrency_cases (concurrency (JStr "0"))))) _).
    vm_compute. reflexivity.
  - refine (proj2 (proj2 (proj2 (getRestConcurrency_cases (concurrency (JStr "8")))))
              (Int 8) _ _ _).
    + vm_compute. reflexivity.
    + discriminate.
    + discriminate.
  - refine (proj2 (proj2 (proj2 (getRestConcurrency_cases (concurrency (JStr "-3")))))
              (Int (-3)) _ _ _).
    + vm_compute. reflexivity.
    + discriminate.
    + discriminate.
Defined.

Lemma getRestOperationTimeout_cases_witness :
  getRestOperationTimeout ∅ = None
  /\ getRestOperationTimeout (timeout (JStr "soon")) = None
  /\ getRestOperationTimeout (timeout (JStr "-5")) = None
  /\ (getRestOperationTimeout (timeout (JStr "30000")) = Some (Int 30000)
      /\ num_gt (Int 30000) (Int 0) = true).
Proof.
  split; [|split; [|split]].
  - exact (proj1 (getRestOperationTimeout_cases ∅) eq_refl).
  - refine (proj1 (proj2 (getRestOperationTimeout_cases (timeout (JStr "soon")))) _).
    apply parseInt_NaN. vm_compute. reflexivity.
  - refine (proj1 (proj2 (proj2 (getRestOperationTimeout_cases (timeout (JStr "-5")))))
              (Int (-5)) _ _).
    + vm_compute. reflexivity.
    + reflexivity.
  - refine (proj2 (proj2 (proj2 (getRestOperationTimeout_cases (timeout (JStr "30000")))))
              (Int 30000) _ _ _).
    + vm_compute. reflexivity.
    + discriminate.
    + reflexivity.
Defined.

(** C2 as the specification states it fails on a negative value: "-3"
    is returned as it is. *)
Lemma getRestConcurrency_negative_limit :
  num_le (Int 1) (getRestConcurrency (concurrency (JStr "-3"))) = false.
Proof. by vm_compute. Qed.

Lemma getRestConcurrency_at_least_one_witness :
  num_le (Int 1) (getRestConcurrency (concurrency (JStr "8"))) = true.
Proof.
  apply getRestConcurrency_at_least_one.
  - vm_compute. discriminate.
  - vm_compute. reflexivity.
Defined.

Lemma setOperationTimeout_frame_witness :
  setOperationTimeout ready {[ "maxresults" := JNum (Int 10) ]} !! "maxresults"
  = Some (JNum (Int 10)).
Proof.
  rewrite (setOperationTimeout_frame ready {[ "maxresults" := JNum (Int 10) ]} "maxresults").
  - reflexivity.
  - discriminate.
Defined.

(** Options without a timeout get the override. *)
Example timeout_injected :
  get (setOperationTimeout ready {[ "maxresults" := JNum (Int 10) ]}) "timeoutIntervalInMs"
  = JNum (Int 30000).
Proof. by vm_compute. Qed.

(** Dispatch of [{kind: "ftp"}]. *)
Lemma performStorageOperation_invalid_type_witness :
  performStorageOperation ready (DObject (StorageOperation (JStr "ftp") (JStr "listContainers"))) []
  = ([], Throw (Thrown (JStr "Invalid azure operation type : ftp"))).
Proof.
  apply (performStorageOperation_invalid_type ready _ [] "ftp").
  - vm_compute. reflexivity.
  - discriminate.
  - discriminate.
  - discriminate.
Defined.

(** Dispatch of [{kind: "BLOB", method: "nonexistentMethod"}]. *)
Lemma performStorageOperation_invalid_operation_witness :
  performStorageOperation ready
    (DObject (StorageOperation (JStr "BLOB") (JStr "nonexistentMethod"))) []
  = ([Created "blob" None],
     Throw (Thrown (JStr ("Invalid operation " +:+ dquote +:+ "nonexistentMethod"
                          +:+ dquote +:+ " in blob service")))).
Proof.
  assert (js_or (get (StorageOperation (JStr "BLOB") (JStr "nonexistentMethod")) "type")
            (JStr "") = JStr "BLOB") as Htype by (vm_compute; reflexivity).
  assert (toLowerCase "BLOB" = OperationType.Blob
          /\ getBlobService None = ([Created "blob" None], Return blobService))
    as Hservice by (split; vm_compute; reflexivity).
  assert (isFunction (get blobService "nonexistentMethod") = false)
    as Hmethod by (vm_compute; reflexivity).
  exact (performStorageOperation_invalid_operation ready
           (StorageOperation (JStr "BLOB") (JStr "nonexistentMethod")) [] "BLOB"
           [Created "blob" None] blobService Htype (or_introl Hservice) Hmethod).
Defined.

(** A property that is there but is no function is refused as well. *)
Example dispatch_not_invocable :
  performStorageOperation ready (DObject (StorageOperation (JStr "blob") (JStr "host"))) []
  = ([Created "blob" None],
     Throw (Thrown (JStr ("Invalid operation " +:+ dquote +:+ "host"
                          +:+ dquote +:+ " in blob service")))).
Proof. by vm_compute. Qed.

Example dispatch_valid :
  performStorageOperation ready listContainers [JNull]
  = ([Created "blob" None; Entered (Funnel (Int 1)); Applied 1 [JNull]],
     Return (JStr "done")).
Proof. by vm_compute. Qed.

(** Before [init] there is no funnel to call. *)
Example dispatch_before_init :
  performStorageOperation initial listContainers [JNull]
  = ([Created "blob" None], Throw TypeError).
Proof. by vm_compute. Qed.

(** A [type] that is no string has no [toLowerCase]. *)
Example dispatch_type_not_a_string :
  performStorageOperation ready (DObject (StorageOperation (JNum (Int 5)) (JStr "listContainers"))) []
  = ([], Throw TypeError).
Proof. by vm_compute. Qed.

Lemma prepare_listContainers :
  prepare listContainers [JNull] = ([Created "blob" None], Return (Some listContainers_bound)).
Proof. by vm_compute. Qed.

(** Two callers on a funnel of one slot: the second waits, and runs once
    the first is done. *)
Lemma funnel_bounds_executing_witness :
  (length (executing (Gate [listContainers_bound] [])) <= 1)%nat.
Proof.
  apply (funnel_bounds_executing ready 1).
  eapply rtc_l.
  { apply (step_enter ready 1 idle listContainers [JNull] [Created "blob" None]
             listContainers_bound).
    - reflexivity.
    - apply prepare_listContainers.
    - cbn. lia. }
  eapply rtc_l.
  { apply (step_wait ready 1 _ listContainers [JNull] [Created "blob" None]
             listContainers_bound).
    - reflexivity.
    - apply prepare_listContainers.
    - cbn. lia. }
  eapply rtc_l.
  { apply (step_resume ready 1 _ [] listContainers_bound [] [] listContainers_bound []);
      reflexivity. }
  apply rtc_refl.
Defined.

End Scenarios.

(** * More of the module *)

(** ** Service resolution *)

Section Services.
Context `{Platform}.

Ltac run_binds :=
  unfold mbind, mret, M_bind, M_ret, lift, emit, throw; cbn [app].

Lemma getStorageServiceSettings_explicit cs :
  cs <> "" ->
  getStorageServiceSettings (Some cs)
  = match createFromConnectionString cs with
    | Return ss => ([], Return (Some ss))
    | Throw e => ([], Throw e)
    end.
Proof.
  intros Hcs%String.eqb_neq. unfold getStorageServiceSettings.
  cbn [no_string]. rewrite Hcs. run_binds. rewrite Hcs.
  by destruct (createFromConnectionString cs).
Qed.

Lemma getStorageServiceSettings_environment cs :
  no_string cs = true ->
  getStorageServiceSettings cs
  = getStorageServiceSettings (env !! ENV_CONNECTIONSTRING_NAME).
Proof.
  intros Hcs. unfold getStorageServiceSettings. rewrite Hcs.
  destruct (env !! ENV_CONNECTIONSTRING_NAME) as [e|]; [|done].
  cbn [no_string]. destruct (String.eqb e "") eqn:He; cbv beta iota; by rewrite He.
Qed.

(** X1. With a connection string of its own, a getter asks the azure package
    for a service on the account name, the key and the endpoint of its
    own kind that the string parses to; the environment is not read. *)
Theorem getService_explicit cs ss :
  cs <> "" ->
  createFromConnectionString cs = Return ss ->
  getBlobService (Some cs)
  = ([Created OperationType.Blob (Some (_name ss, _key ss, _blobEndpointUri ss))],
     createBlobService (Some (_name ss, _key ss, _blobEndpointUri ss)))
  /\ getTableService (Some cs)
     = ([Created OperationType.Table (Some (_name ss, _key ss, _tableEndpointUri ss))],
        createTableService (Some (_name ss, _key ss, _tableEndpointUri ss)))
  /\ getQueueService (Some cs)
     = ([Created OperationType.Queue (Some (_name ss, _key ss, _queueEndpointUri ss))],
        createQueueService (Some (_name ss, _key ss, _queueEndpointUri ss))).
Proof.
  intros Hcs Hss.
  unfold getBlobService, getTableService, getQueueService.
  rewrite (getStorageServiceSettings_explicit _ Hcs), Hss. run_binds.
  repeat apply conj;
    match goal with |- context [(?t, ?o)] => by destruct o end.
Qed.

(** X2. A connection string the parser refuses makes every getter throw what
    the parser threw; no service is asked for. *)
Theorem getService_rejected cs e :
  cs <> "" ->
  createFromConnectionString cs = Throw e ->
  getBlobService (Some cs) = ([], Throw e)
  /\ getTableService (Some cs) = ([], Throw e)
  /\ getQueueService (Some cs) = ([], Throw e).
Proof.
  intros Hcs He.
  unfold getBlobService, getTableService, getQueueService.
  by rewrite (getStorageServiceSettings_explicit _ Hcs), He.
Qed.

(** X3. Without a connection string, given or in the environment, the
    getters ask for the default service, with no argument, and the parser
    is not called. *)
Theorem getService_default cs :
  no_string cs = true ->
  no_string (env !! ENV_CONNECTIONSTRING_NAME) = true ->
  getBlobService cs = ([Created OperationType.Blob None], createBlobService None)
  /\ getTableService cs = ([Created OperationType.Table None], createTableService None)
  /\ getQueueService cs = ([Created OperationType.Queue None], createQueueService None).
Proof.
  intros Hcs Henv.
  assert (getStorageServiceSettings cs = ([], Return None)) as Hnone.
  { unfold getStorageServiceSettings. rewrite Hcs.
    destruct (env !! ENV_CONNECTIONSTRING_NAME) as [e|]; [|done].
    cbn [no_string] in Henv. by rewrite Henv. }
  unfold getBlobService, getTableService, getQueueService.
  rewrite Hnone. run_binds.
  repeat apply conj;
    match goal with |- context [(?t, ?o)] => by destruct o end.
Qed.

(** X4. A connection string that is missing or empty stands for the one in
    [AZURE_STORAGE_CONNECTION_STRING]. *)
Theorem getService_environment cs :
  no_string cs = true ->
  getBlobService cs = getBlobService (env !! ENV_CONNECTIONSTRING_NAME)
  /\ getTableService cs = getTableService (env !! ENV_CONNECTIONSTRING_NAME)
  /\ getQueueService cs = getQueueService (env !! ENV_CONNECTIONSTRING_NAME).
Proof.
  intros Hcs. unfold getBlobService, getTableService, getQueueService.
  by rewrite (getStorageServiceSettings_environment _ Hcs).
Qed.

End Services.

(** ** The dispatcher, past its checks *)

Section Dispatch.
Context `{Platform}.

Lemma mret_bind {A B} (a : A) (k : A -> M B) : mret a ≫= k = k a.
Proof. unfold mbind, mret, M_bind, M_ret. by destruct (k a). Qed.

Lemma js_or_string s : js_or (JStr s) (JStr "") = JStr s.
Proof.
  unfold js_or. cbn [truthy]. destruct (String.eqb_spec s ""); by subst.
Qed.

(** The dispatcher on a descriptor whose type names a service: the
    getter call, then the check of the method. *)
Lemma prepare_resolved (o : gmap string jsval) rest s m :
  js_or (get o "type") (JStr "") = JStr s ->
  resolves (toLowerCase s) m ->
  let operation := ToString (js_or (get o "operation") (JStr "")) in
  prepare (DObject o) rest
  = (service ← m;
     if negb (truthy (get service operation)) || negb (isFunction (get service operation))
     then throw (Thrown (JStr ("Invalid operation " +:+ dquote +:+ operation +:+ dquote
                               +:+ " in " +:+ toLowerCase s +:+ " service")))
     else mret (Some (Bound service (get service operation) rest))).
Proof.
  intros Htype Hm operation. unfold prepare.
  rewrite (kind_of_string _ _ Htype), mret_bind.
  by destruct Hm as [[-> ->]|[[-> ->]|[-> ->]]].
Qed.

Lemma perform_service_failure st (o : gmap string jsval)
    (rest : list jsval) s m t e :
  js_or (get o "type") (JStr "") = JStr s ->
  resolves (toLowerCase s) m ->
  m = (t, Throw e) ->
  performStorageOperation st (DObject o) rest = (t, Throw e).
Proof.
  intros Htype Hm ->. unfold performStorageOperation.
  by rewrite (prepare_resolved _ _ _ _ Htype Hm).
Qed.

Lemma perform_resolved st (o : gmap string jsval) (rest : list jsval) s m t svc g :
  js_or (get o "type") (JStr "") = JStr s ->
  resolves (toLowerCase s) m ->
  m = (t, Return svc) ->
  get svc (ToString (js_or (get o "operation") (JStr ""))) = JFun g ->
  performStorageOperation st (DObject o) rest
  = match restFunnel st with
    | Some f => ((t ++ [Entered f; Applied g rest])%list, apply_ g svc rest)
    | None => (t, Throw TypeError)
    end.
Proof.
  intros Htype Hm -> Hg. unfold performStorageOperation.
  rewrite (prepare_resolved _ _ _ _ Htype Hm). cbv zeta.
  unfold mbind, mret, M_bind, M_ret, run, emit, lift, throw. rewrite Hg.
  change (isFunction (JFun g)) with true.
  cbn [truthy negb orb]. cbv beta iota zeta.
  destruct (restFunnel st) as [f|]; cbn [method service operationArgs app].
  - destruct (apply_ g svc rest); cbn [app]; by rewrite ?app_nil_r.
  - by rewrite ?app_nil_r.
Qed.

Lemma perform_refused st (o : gmap string jsval) (rest : list jsval) s m t svc :
  js_or (get o "type") (JStr "") = JStr s ->
  resolves (toLowerCase s) m ->
  m = (t, Return svc) ->
  negb (truthy (get svc (ToString (js_or (get o "operation") (JStr "")))))
  || negb (isFunction (get svc (ToString (js_or (get o "operation") (JStr "")))))
  = true ->
  exists v, performStorageOperation st (DObject o) rest = (t, Throw (Thrown v)).
Proof.
  intros Htype Hm -> Hno. unfold performStorageOperation.
  rewrite (prepare_resolved _ _ _ _ Htype Hm). cbv zeta.
  unfold mbind, mret, M_bind, M_ret, throw. rewrite Hno.
  eexists. by rewrite app_nil_r.
Qed.

Lemma perform_unresolved st (o : gmap string jsval) (rest : list jsval) s :
  js_or (get o "type") (JStr "") = JStr s ->
  toLowerCase s <> OperationType.Blob ->
  toLowerCase s <> OperationType.Table ->
  toLowerCase s <> OperationType.Queue ->
  exists v, performStorageOperation st (DObject o) rest = ([], Throw (Thrown v)).
Proof.
  intros Htype Hb%String.eqb_neq Ht%String.eqb_neq Hq%String.eqb_neq.
  unfold performStorageOperation, prepare.
  rewrite (kind_of_string _ _ Htype), mret_bind, Hb, Ht, Hq. by eexists.
Qed.

(** A method that passed the check is a function. *)
Lemma checked_method v :
  negb (truthy v) || negb (isFunction v) = false -> exists g, v = JFun g.
Proof.
  unfold isFunction. destruct v; cbn [typeof]; simpl (String.eqb _ _);
    rewrite ?orb_true_r; intros; try discriminate; eauto.
Qed.

(** What a getter leaves behind: nothing, when the parser threw, or the
    one service it asked for. *)
Lemma resolves_trace type m :
  resolves type m ->
  (exists e, m = ([], Throw e)) \/ (exists c r, m = ([Created type c], r)).
Proof.
  intros [[-> ->]|[[-> ->]|[-> ->]]];
    unfold getBlobService, getTableService, getQueueService;
    destruct (getStorageServiceSettings None) as [t [[ss|]|e]] eqn:Hs;
    unfold getStorageServiceSettings in Hs; cbn [no_string] in Hs;
    (destruct (env !! ENV_CONNECTIONSTRING_NAME) as [cs|];
     [destruct (String.eqb cs "");
      [|destruct (createFromConnectionString cs)]|]);
    unfold mbind, mret, M_bind, M_ret, lift, emit in *;
    simplify_eq; cbn [app]; eauto.
Qed.

(** X5. A valid operation: the method found on the service runs inside the
    funnel, on exactly the arguments the caller gave after the callback,
    and what it returns or throws is what the call returns or throws. *)
Theorem performStorageOperation_runs st (o : gmap string jsval) (rest : list jsval)
    s m t svc f g :
  js_or (get o "type") (JStr "") = JStr s ->
  resolves (toLowerCase s) m ->
  m = (t, Return svc) ->
  get svc (ToString (js_or (get o "operation") (JStr ""))) = JFun g ->
  restFunnel st = Some f ->
  performStorageOperation st (DObject o) rest
  = ((t ++ [Entered f; Applied g rest])%list, apply_ g svc rest).
Proof.
  intros Htype Hm Hsvc Hg Hf.
  by rewrite (perform_resolved st _ _ _ _ _ _ _ Htype Hm Hsvc Hg), Hf.
Qed.

(** X6. Before [init] there is no funnel: a valid operation has its service
    made, then fails with a TypeError, and the method is not run. *)
Theorem performStorageOperation_uninitialised st (o : gmap string jsval)
    (rest : list jsval) s m t svc g :
  js_or (get o "type") (JStr "") = JStr s ->
  resolves (toLowerCase s) m ->
  m = (t, Return svc) ->
  get svc (ToString (js_or (get o "operation") (JStr ""))) = JFun g ->
  restFunnel st = None ->
  performStorageOperation st (DObject o) rest = (t, Throw TypeError).
Proof.
  intros Htype Hm Hsvc Hg Hf.
  by rewrite (perform_resolved st _ _ _ _ _ _ _ Htype Hm Hsvc Hg), Hf.
Qed.

(** X10. [init], the constructor of descriptors and the dispatcher together:
    once [init] has run, a descriptor made by [StorageOperation] for a
    kind of service and a method of it runs that method, in the funnel
    [init] made for the concurrency it read. *)
Theorem dispatch_after_init (cfg : gmap string jsval) (kind operation : string)
    (rest : list jsval) m t svc g :
  resolves (toLowerCase kind) m ->
  m = (t, Return svc) ->
  get svc operation = JFun g ->
  performStorageOperation (init cfg)
    (DObject (StorageOperation (JStr kind) (JStr operation))) rest
  = ((t ++ [Entered (Funnel (getRestConcurrency cfg)); Applied g rest])%list,
     apply_ g svc rest).
Proof.
  intros Hm Hsvc Hg.
  assert (get (StorageOperation (JStr kind) (JStr operation)) "type" = JStr kind)
    as Htype by (unfold get, StorageOperation; by simplify_map_eq).
  assert (get (StorageOperation (JStr kind) (JStr operation)) "operation"
          = JStr operation)
    as Hop by (unfold get, StorageOperation; by simplify_map_eq).
  rewrite (perform_resolved (init cfg) _ rest kind m t svc g); [done| |done..|].
  - by rewrite Htype, js_or_string.
  - by rewrite Hop, js_or_string.
Qed.

(** X9. Of service constructions, entries into the funnel and methods
    applied, one call makes at most: one service asked for, then the
    funnel entered once and one method applied, to the caller's
    arguments; never a method without the funnel, nor a second service.
    (The settings parser, which the getter may call before it asks for
    the service, is not an event and is not counted here.) *)
Theorem performStorageOperation_trace st d (rest : list jsval) t r :
  performStorageOperation st d rest = (t, r) ->
  t = []
  \/ exists type c,
       (type = OperationType.Blob \/ type = OperationType.Table
        \/ type = OperationType.Queue)
       /\ (t = [Created type c]
           \/ exists f g, restFunnel st = Some f
                          /\ t = [Created type c; Entered f; Applied g rest]).
Proof.
  intros Hp. destruct d as [| |o].
  { injection Hp as <- _. by left. }
  { injection Hp as <- _. by left. }
  destruct (js_or (get o "type") (JStr "")) as [| |b|n|s|f0|o0] eqn:Htype;
    try (unfold performStorageOperation, prepare in Hp; rewrite Htype in Hp;
         injection Hp as <- _; by left).
  assert ((exists m, resolves (toLowerCase s) m)
          \/ (toLowerCase s <> OperationType.Blob
              /\ toLowerCase s <> OperationType.Table
              /\ toLowerCase s <> OperationType.Queue)) as [[m Hm]|(Hb & Ht & Hq)].
  { unfold resolves.
    destruct (decide (toLowerCase s = OperationType.Blob)); [by eauto 6|].
    destruct (decide (toLowerCase s = OperationType.Table)); [by eauto 6|].
    destruct (decide (toLowerCase s = OperationType.Queue)); [by eauto 6|].
    by right. }
  2: { destruct (perform_unresolved st o rest s Htype Hb Ht Hq) as [v Hv].
       rewrite Hv in Hp. injection Hp as <- _. by left. }
  assert (toLowerCase s = OperationType.Blob \/ toLowerCase s = OperationType.Table
          \/ toLowerCase s = OperationType.Queue) as Hkind.
  { destruct Hm as [[? _]|[[? _]|[? _]]]; auto. }
  destruct (resolves_trace _ _ Hm) as [[e Hmeq]|(c & [svc|e] & Hmeq)].
  - rewrite (perform_service_failure st o rest s _ _ _ Htype Hm Hmeq) in Hp.
    injection Hp as <- _. by left.
  - right. exists (toLowerCase s), c. split; [done|].
    destruct (negb (truthy (get svc (ToString (js_or (get o "operation") (JStr "")))))
              || negb (isFunction (get svc (ToString (js_or (get o "operation") (JStr ""))))))
      eqn:Hcheck.
    + destruct (perform_refused st o rest s _ _ _ Htype Hm Hmeq Hcheck) as [v Hv].
      rewrite Hv in Hp. injection Hp as <- _. by left.
    + apply checked_method in Hcheck as [g Hg].
      rewrite (perform_resolved st o rest s _ _ _ g Htype Hm Hmeq Hg) in Hp.
      destruct (restFunnel st) as [f|]; injection Hp as <- _; [right; eauto|by left].
  - rewrite (perform_service_failure st o rest s _ _ _ Htype Hm Hmeq) in Hp.
    injection Hp as <- _. right. exists (toLowerCase s), c. split; [done|by left].
Qed.

(** X7. What the azure package throws while the service is made comes out of
    the dispatcher as it is; the funnel is not entered. *)
Theorem performStorageOperation_service_failure st (o : gmap string jsval)
    (rest : list jsval) s m t e :
  js_or (get o "type") (JStr "") = JStr s ->
  resolves (toLowerCase s) m ->
  m = (t, Throw e) ->
  performStorageOperation st (DObject o) rest = (t, Throw e).
Proof. apply perform_service_failure. Qed.

(** X8. The type of a descriptor counts through its lowercase only. *)
Theorem performStorageOperation_case_insensitive st (o1 o2 : gmap string jsval)
    (rest : list jsval) s1 s2 :
  js_or (get o1 "type") (JStr "") = JStr s1 ->
  js_or (get o2 "type") (JStr "") = JStr s2 ->
  toLowerCase s1 = toLowerCase s2 ->
  get o1 "operation" = get o2 "operation" ->
  performStorageOperation st (DObject o1) rest
  = performStorageOperation st (DObject o2) rest.
Proof.
  intros H1 H2 Hs Hop. unfold performStorageOperation, prepare.
  by rewrite (kind_of_string _ _ H1), (kind_of_string _ _ H2), Hs, Hop.
Qed.

Lemma lower_char_idempotent c : lower_char (lower_char c) = lower_char c.
Proof. by destruct c as [[] [] [] [] [] [] [] []]; vm_compute. Qed.

Lemma toLowerCase_idempotent s : toLowerCase (toLowerCase s) = toLowerCase s.
Proof.
  induction s as [|c s IH]; [done|].
  cbn [toLowerCase]. by rewrite lower_char_idempotent, IH.
Qed.

End Dispatch.

(** ** The timeout injection, again *)

Section Injection.
Context `{Platform}.

Lemma misspelt_after_insert (options : gmap string jsval) v :
  get (<["timeoutIntervalInMs" := v]> options) "timeoutintervalInMs"
  = get options "timeoutintervalInMs".
Proof. unfold get. by rewrite lookup_insert_ne. Qed.

(** X11. A second [setOperationTimeout] on the same options changes nothing
    more. *)
Theorem setOperationTimeout_idempotent st (options : gmap string jsval) :
  setOperationTimeout st (setOperationTimeout st options)
  = setOperationTimeout st options.
Proof.
  unfold setOperationTimeout. destruct (operationTimeout st) as [timeout|]; [|done].
  destruct (bool_decide (get options "timeoutintervalInMs" = JUndefined)
            && negb (isNaN timeout) && num_gt timeout (Int 0)) eqn:Hguard.
  - rewrite misspelt_after_insert, Hguard. apply insert_insert_eq.
  - by rewrite Hguard.
Qed.

(** X12. After [init] the override is either [null] or a Number above zero, so
    that [setOperationTimeout] writes exactly when [init] read a timeout
    and the options have no [timeoutintervalInMs]. *)
Theorem setOperationTimeout_after_init (cfg options : gmap string jsval) :
  setOperationTimeout (init cfg) options
  = match getRestOperationTimeout cfg with
    | Some timeout =>
        if bool_decide (get options "timeoutintervalInMs" = JUndefined)
        then <["timeoutIntervalInMs" := JNum timeout]> options
        else options
    | None => options
    end.
Proof.
  unfold setOperationTimeout, init. cbn [operationTimeout].
  unfold getRestOperationTimeout. cbv zeta.
  destruct (isNaN (parseInt _ 10) || num_le (parseInt _ 10) (Int 0)) eqn:Hno; [done|].
  apply orb_false_iff in Hno as [Hnan Hle].
  rewrite Hnan. rewrite (num_le_gt _ Hle) by (by destruct (parseInt _ 10)).
  by rewrite !andb_true_r.
Qed.

End Injection.

(** ** Configuration, again *)

Section Resolved.
Context `{Platform}.

Lemma decimal_value_nonneg ds :
  all_chars is_decimal_digit ds = true -> 0 <= decimal_value ds.
Proof.
  unfold decimal_value.
  assert (forall acc, 0 <= acc -> all_chars is_decimal_digit ds = true ->
                      0 <= decimal_value_from acc ds) as Hacc; [|by apply Hacc].
  induction ds as [|c ds IH]; intros acc Hacc Hds; [done|].
  cbn [all_chars decimal_value_from] in *.
  apply andb_true_iff in Hds as [Hc Hds]. apply IH; [|done].
  unfold is_decimal_digit in Hc. lia.
Qed.

(** X13. The capacity [init] makes the funnel for is a Number, never NaN, and
    not zero on a host that reports a CPU. *)
Theorem getRestConcurrency_is_a_number (cfg : gmap string jsval) :
  isNaN (getRestConcurrency cfg) = false
  /\ ((1 <= cpus_length)%N -> num_eq (getRestConcurrency cfg) (Int 0) = false).
Proof.
  unfold getRestConcurrency, getDefaultRestConcurrency. cbv zeta.
  destruct (parseInt _ 10) as [|z|b]; cbn [isNaN num_eq orb].
  - split; [done|]. intros Hcpu. apply Z.eqb_neq. lia.
  - destruct (Z.eqb_spec z 0) as [->|Hz]; cbn [isNaN num_eq].
    + split; [done|]. intros Hcpu. apply Z.eqb_neq. lia.
    + split; [done|]. intros _. by apply Z.eqb_neq.
  - done.
Qed.

(** X14. A concurrency that starts, after white space, with a decimal numeral
    of magnitude below [2 ^ 53] resolves to exactly that integer,
    whatever follows the digits; to the CPU count if it is zero. *)
Theorem getRestConcurrency_reads (cfg : gmap string jsval) negative ds :
  reads_as (ToString (get cfg CONCURRENTCY_CONFIG_KEY_NAME)) negative ds ->
  decimal_value ds < 2 ^ 53 ->
  getRestConcurrency cfg
  = if decimal_value ds =? 0 then Int (Z.of_N cpus_length * 1)
    else Int (if negative then - decimal_value ds else decimal_value ds).
Proof.
  intros Hr Hsmall. rewrite (getRestConcurrency_numeral _ _ _ Hr). cbv zeta.
  assert (0 <= decimal_value ds) as Hpos.
  { destruct Hr as (? & ? & ? & _ & _ & _ & _ & Hds & _).
    by apply decimal_value_nonneg. }
  destruct negative.
  - destruct (Z.eqb_spec (decimal_value ds) 0), (Z.eqb_spec (- decimal_value ds) 0);
      try lia; [done|]. apply of_integer_exact. lia.
  - destruct (Z.eqb_spec (decimal_value ds) 0); [done|]. apply of_integer_exact. lia.
Qed.

(** X15. A timeout that starts with a decimal numeral below [2 ^ 53] resolves
    to exactly that many milliseconds; to [null] if it is zero or carries
    a minus sign. *)
Theorem getRestOperationTimeout_reads (cfg : gmap string jsval) negative ds :
  reads_as (ToString (get cfg OPERATION_TIMEOUT_CONFIG_KEY_NAME)) negative ds ->
  decimal_value ds < 2 ^ 53 ->
  getRestOperationTimeout cfg
  = if negative || (decimal_value ds =? 0) then None
    else Some (Int (decimal_value ds)).
Proof.
  intros Hr Hsmall. rewrite (getRestOperationTimeout_numeral _ _ _ Hr). cbv zeta.
  assert (0 <= decimal_value ds) as Hpos.
  { destruct Hr as (? & ? & ? & _ & _ & _ & _ & Hds & _).
    by apply decimal_value_nonneg. }
  destruct negative; cbn [orb].
  - destruct (Z.leb_spec (- decimal_value ds) 0); [done|lia].
  - destruct (Z.leb_spec (decimal_value ds) 0), (Z.eqb_spec (decimal_value ds) 0);
      try lia; [done|]. f_equal. apply of_integer_exact. lia.
Qed.

End Resolved.

(** ** The progress display *)

(** X16. However [startProgress] and [endProgress] are called, the progresses
    begun and not yet ended are the one the module holds in [progress],
    or none: never two at a time. *)
Theorem display_one_progress (cs : list display_call) (d : display) :
  running (display_calls cs d).1 (held d) = held (display_calls cs d).2.
Proof.
  assert (forall t1 t2 ps, running (t1 ++ t2) ps = running t2 (running t1 ps)) as Happ.
  { induction t1 as [|[tips p|p] t1 IH]; intros; cbn [app running]; by rewrite ?IH. }
  assert (forall p : nat, filter (fun q => q <> p) [p] = []) as Hgone.
  { intros p. rewrite filter_cons. by destruct (decide (p <> p)). }
  revert d. induction cs as [|[tips|] cs IH]; intros d; [done|..];
    cbn [display_calls].
  - unfold startProgress, endProgress, held.
    destruct (progress d) as [p|] eqn:Hp, (cli d) as [c|] eqn:Hc;
      cbn [cli progress made]; rewrite ?Hc;
      match goal with
      | |- context [display_calls cs ?d'] =>
          specialize (IH d'); destruct (display_calls cs d') as [t' d'']
      end;
      unfold held in IH; cbn [fst snd progress] in *; rewrite ?Hp in IH;
      rewrite ?Happ; cbn [running app]; by rewrite ?Hgone.
  - unfold endProgress, held.
    match goal with
    | |- context [display_calls cs ?d'] =>
        specialize (IH d'); destruct (display_calls cs d') as [t' d'']
    end.
    unfold held in IH. cbn [fst snd progress] in *. rewrite Happ.
    destruct (progress d) as [p|]; cbn [running]; by rewrite ?Hgone.
Qed.

(** * The test support *)

Section Environment.
Context `{Platform}.

(** X17. [ensureEnvironment] returns when the three variables it asks for are
    set to something other than the empty string, and only then. *)
Theorem ensureEnvironment_returns :
  ensureEnvironment = Ok tt
  <-> Forall (fun name => exists v, env !! name = Some v /\ v <> "")
        ["AZURE_TEST_ENVIRONMENT"; "AZURE_STORAGE_ACCOUNT"; "AZURE_STORAGE_ACCESS_KEY"].
Proof.
  assert (forall name, unset name = false <-> exists v, env !! name = Some v /\ v <> "")
    as Hset.
  { intros name. unfold unset, no_string. destruct (env !! name) as [v|].
    - rewrite String.eqb_neq. split; [by eauto|]. by intros (? & [= <-] & ?).
    - split; [done|]. by intros (? & ? & _). }
  rewrite !Forall_cons, Forall_nil, <- !Hset. unfold ensureEnvironment.
  destruct (unset "AZURE_TEST_ENVIRONMENT"), (unset "AZURE_STORAGE_ACCOUNT"),
    (unset "AZURE_STORAGE_ACCESS_KEY");
    (split; [intros ?; try discriminate; auto
            |intros (? & ? & ? & _); try discriminate; auto]).
Qed.

End Environment.

(** ** The name of the settings *)

Lemma replace_first_once s :
  (all_chars outside s = true /\ replace_first s = s)
  \/ exists before c after,
       s = before +:+ String c after
       /\ all_chars outside before = true
       /\ in_class c = true
       /\ replace_first s = before +:+ after.
Proof.
  induction s as [|c s IH]; [by left|].
  cbn [replace_first all_chars]. unfold outside at 1.
  destruct (in_class c) eqn:Hc.
  - right. by exists "", c, s.
  - destruct IH as [[Hall ->]|(before & c' & after & -> & Hall & Hc' & ->)].
    + left. by rewrite Hall.
    + right. exists (String c before), c', after.
      rewrite !append_String. cbn [all_chars]. unfold outside at 1.
      by rewrite Hc, Hall.
Qed.

Section Downloader.
Context `{Files}.

(** X18. [getPublishSettings] looks in the cache for, and hands on, the name
    it was given less its first character between the space and the full
    stop, and that one only: a name with none is taken as it is, and what
    follows the character taken out stays, whatever it is. *)
Theorem getPublishSettings_name (self settingsName : string) :
  exists name,
    getPublishSettings self settingsName
    = (if existsSync (fullSettingsFilePath self name)
       then GetPublishSettingsFromCache name
       else DownloadPublishSettings name)
    /\ ((all_chars outside settingsName = true /\ name = settingsName)
        \/ exists before c after,
             settingsName = before +:+ String c after
             /\ all_chars outside before = true
             /\ in_class c = true
             /\ name = before +:+ after).
Proof.
  exists (replace_first settingsName). split; [done|].
  destruct (replace_first_once settingsName) as [[? ?]|(b & c & a & ? & ? & ? & ?)];
    [by left|right; by exists b, c, a].
Qed.

(** X19. The settings [parsePublishSettings] calls back with: one for each
    subscription of each profile, each with the path of the file and the
    [Url] of its profile. *)
Theorem settings_of_results (fullpath : string) (data : publishData)
    (profiles : list profile) (results : list setting) :
  PublishProfile data = Some profiles ->
  settings_of fullpath (Some data) = Some results ->
  length results
  = sum_list_with (fun p => length (default [] (Subscription p))) profiles
  /\ Forall (fun r => path r = fullpath) results
  /\ Forall (fun r => exists p attributes,
                        p ∈ profiles
                        /\ profile_attributes p = Some attributes
                        /\ endpoint r = get attributes "Url") results.
Proof.
  intros Hps. unfold settings_of. cbn [mbind option_bind]. rewrite Hps.
  cbn [mbind option_bind].
  destruct (mapM (profile_settings fullpath) profiles) as [each|] eqn:Heach; [|done].
  intros [= <-]. clear Hps. apply mapM_Some in Heach.
  induction Heach as [|p e ps each Hp _ IH]; [done|].
  destruct IH as (IHlen & IHpath & IHend).
  unfold profile_settings in Hp.
  destruct (profile_attributes p) as [attributes|] eqn:Hattr; [|done].
  destruct (Subscription p) as [subs|] eqn:Hsubs; [|done].
  cbn [mbind option_bind] in Hp. apply mapM_Some in Hp.
  assert (length e = length subs
          /\ Forall (fun r => path r = fullpath) e
          /\ Forall (fun r => endpoint r = get attributes "Url") e) as (Hlen & Hpath & Hend).
  { clear -Hp. induction Hp as [|s r subs e Hs _ IH]; [done|].
    unfold subscription_setting in Hs.
    destruct (subscription_attributes s); [|done]. injection Hs as <-.
    destruct IH as (? & ? & ?). cbn [length]. repeat split; try constructor; auto. }
  cbn [concat sum_list_with]. rewrite length_app, Hsubs, Hlen, IHlen.
  split; [done|]. split; [by apply Forall_app|].
  apply Forall_app. split.
  - eapply Forall_impl; [exact Hend|]. intros r Hr.
    exists p, attributes. split; [by left|done].
  - eapply Forall_impl; [exact IHend|]. intros r (p' & a' & ? & ? & ?).
    exists p', a'. split; [by right|done].
Qed.

(** X20. A profile that comes without attributes or without a subscription,
    or a subscription without attributes, and the loops throw: the
    callback gets no results, not even those of the other profiles. *)
Theorem settings_of_throws (fullpath : string) (data : publishData)
    (profiles : list profile) (p : profile) :
  PublishProfile data = Some profiles ->
  p ∈ profiles ->
  profile_attributes p = None
  \/ Subscription p = None
  \/ (exists subs s, Subscription p = Some subs /\ s ∈ subs
                     /\ subscription_attributes s = None) ->
  settings_of fullpath (Some data) = None.
Proof.
  intros Hps Hp Hbad.
  unfold settings_of. cbn [mbind option_bind]. rewrite Hps. cbn [mbind option_bind].
  assert (mapM (profile_settings fullpath) profiles = None) as ->; [|done].
  apply mapM_None, Exists_exists. exists p. split; [done|].
  unfold profile_settings.
  destruct Hbad as [->|[Hs|(subs & s & Hs & Hin & Hattr)]]; [done|..].
  - destruct (profile_attributes p); [|done]. cbn [mbind option_bind]. by rewrite Hs.
  - destruct (profile_attributes p); [|done]. cbn [mbind option_bind]. rewrite Hs.
    cbn [mbind option_bind]. apply mapM_None, Exists_exists. exists s.
    split; [done|]. unfold subscription_setting. by rewrite Hattr.
Qed.

End Downloader.

(** ** The command builder *)

Lemma split_on_cons sep s : exists h t, split_on sep s = h :: t.
Proof.
  destruct s as [|c s]; cbn [split_on]; [by eauto|].
  destruct (Ascii.eqb c sep); [by eauto|]. destruct (split_on sep s); eauto.
Qed.

(** Splitting at a separator: what is before it, then what is after. *)
Lemma split_on_app sep a b :
  split_on sep (a +:+ String sep b) = (split_on sep a ++ split_on sep b)%list.
Proof.
  induction a as [|c a IH].
  - rewrite append_empty. cbn [split_on]. by rewrite Ascii.eqb_refl.
  - rewrite append_String. cbn [split_on]. rewrite IH.
    destruct (Ascii.eqb c sep); [done|].
    by destruct (split_on_cons sep a) as (h & t & ->).
Qed.

(** X21. The command line [toStorageCmd] makes: [node cli.js storage], the
    words of the trimmed command, [--json].  A command with nothing in
    it still gives a word, the empty one. *)
Theorem toStorageCmd_words (this : string) :
  toStorageCmd this
  = (["node"; "cli.js"; "storage"] ++ split_on " " (trim this) ++ ["--json"])%list.
Proof.
  unfold toStorageCmd. cbv zeta.
  assert ((if (0 <? String.length (trim this))%nat
           then ("node " +:+ "cli.js" +:+ " storage ") +:+ trim this
           else "node " +:+ "cli.js" +:+ " storage ")
          = "node cli.js storage" +:+ String " " (trim this)) as ->.
  { destruct (trim this); reflexivity. }
  rewrite split_on_app. by rewrite <- app_assoc.
Qed.

Lemma join_with_cons sep h t :
  join_with sep (h :: t)
  = match t with [] => h | _ => h +:+ sep +:+ join_with sep t end.
Proof. by destruct t. Qed.

Lemma append_assoc (a b c : string) : (a +:+ b) +:+ c = a +:+ b +:+ c.
Proof. induction a as [|x a IH]; [done|]. rewrite !append_String. by rewrite IH. Qed.

(** Joined with spaces, the words of a string are the string. *)
Lemma join_split_on s : join_with " " (split_on " " s) = s.
Proof.
  induction s as [|c s IH]; [done|]. cbn [split_on].
  destruct (Ascii.eqb_spec c " ") as [->|Hc].
  - rewrite join_with_cons. destruct (split_on_cons " " s) as (h & t & Hs).
    rewrite Hs in *. by rewrite IH.
  - destruct (split_on_cons " " s) as (h & t & Hs). rewrite Hs in *.
    rewrite join_with_cons in *. destruct t; rewrite <- IH; by rewrite ?append_String.
Qed.

(** X22. Joined with spaces, the words [toStorageCmd] makes read
    [node cli.js storage <command> --json], the command trimmed and
    otherwise as it was given. *)
Theorem toStorageCmd_joined (this : string) :
  join_with " " (toStorageCmd this)
  = "node cli.js storage " +:+ trim this +:+ " --json".
Proof.
  assert (forall l s, l <> [] ->
            join_with " " (l ++ [s]) = join_with " " l +:+ " " +:+ s) as Hsnoc.
  { induction l as [|h [|h' t] IH]; intros s Hl; [done|done|].
    change (join_with " " ((h :: h' :: t) ++ [s]))
      with (h +:+ " " +:+ join_with " " ((h' :: t) ++ [s])).
    rewrite IH by done.
    change (join_with " " (h :: h' :: t)) with (h +:+ " " +:+ join_with " " (h' :: t)).
    by rewrite !append_assoc. }
  unfold toStorageCmd. cbv zeta.
  assert ((if (0 <? String.length (trim this))%nat
           then ("node " +:+ "cli.js" +:+ " storage ") +:+ trim this
           else "node " +:+ "cli.js" +:+ " storage ")
          = "node cli.js storage " +:+ trim this) as ->.
  { destruct (trim this); reflexivity. }
  rewrite Hsnoc, join_split_on.
  - by rewrite append_assoc.
  - by destruct (split_on_cons " " ("node cli.js storage " +:+ trim this)) as (? & ? & ->).
Qed.

(** * More scenarios *)

Section Resolution.

Lemma getService_explicit_witness :
  @getBlobService Cases.platform (Some Cases.devConnectionString)
  = ([Created "blob" (Some (JStr "devstoreaccount1", JStr "devkey",
                            JStr "http://127.0.0.1:10000"))],
     Return Sample.blobService)
  /\ @getTableService Cases.platform (Some Cases.devConnectionString)
     = ([Created "table" (Some (JStr "devstoreaccount1", JStr "devkey",
                                JStr "http://127.0.0.1:10002"))],
        Return Cases.tableService)
  /\ @getQueueService Cases.platform (Some Cases.devConnectionString)
     = ([Created "queue" (Some (JStr "devstoreaccount1", JStr "devkey",
                                JStr "http://127.0.0.1:10001"))],
        Return Cases.queueService).
Proof.
  refine (@getService_explicit Cases.platform Cases.devConnectionString
            Cases.devSettings _ _).
  - discriminate.
  - reflexivity.
Defined.

Lemma getService_rejected_witness :
  @getBlobService Cases.platform (Some "AccountName") = ([], Throw (Failure 7)).
Proof.
  refine (proj1 (@getService_rejected Cases.platform "AccountName" (Failure 7) _ _)).
  - discriminate.
  - reflexivity.
Defined.

Lemma getService_default_witness :
  @getQueueService Sample.platform (Some "") = ([Created "queue" None], Return ∅).
Proof.
  refine (proj2 (proj2 (@getService_default Sample.platform (Some "") _ _)));
    reflexivity.
Defined.

Lemma getService_environment_witness :
  @getBlobService Cases.platform None
  = @getBlobService Cases.platform (Some Cases.devConnectionString).
Proof.
  refine (proj1 (@getService_environment Cases.platform None _)). reflexivity.
Defined.

End Resolution.

Section Dispatching.
Import Sample.

Lemma blob_resolves : resolves (toLowerCase "Blob") (getBlobService None).
Proof. left. by split. Qed.

Lemma performStorageOperation_runs_witness :
  performStorageOperation ready listContainers [JNull]
  = ([Created "blob" None; Entered (Funnel (Int 1)); Applied 1 [JNull]],
     Return (JStr "done")).
Proof.
  refine (performStorageOperation_runs ready _ [JNull] "Blob" (getBlobService None)
            [Created "blob" None] blobService (Funnel (Int 1)) 1 _ blob_resolves _ _ _);
    by vm_compute.
Defined.

Lemma performStorageOperation_uninitialised_witness :
  performStorageOperation initial listContainers [JNull]
  = ([Created "blob" None], Throw TypeError).
Proof.
  refine (performStorageOperation_uninitialised initial _ [JNull] "Blob"
            (getBlobService None) [Created "blob" None] blobService 1
            _ blob_resolves _ _ _);
    by vm_compute.
Defined.

Lemma dispatch_after_init_witness :
  performStorageOperation (init (concurrency (JStr "8")))
    (DObject (StorageOperation (JStr "Blob") (JStr "listContainers"))) [JNull]
  = ([Created "blob" None; Entered (Funnel (Int 8)); Applied 1 [JNull]],
     Return (JStr "done")).
Proof.
  assert (getRestConcurrency (concurrency (JStr "8")) = Int 8) as Hc by (by vm_compute).
  rewrite <- Hc.
  refine (dispatch_after_init (concurrency (JStr "8")) "Blob" "listContainers" [JNull]
            (getBlobService None) [Created "blob" None] blobService 1
            blob_resolves _ _);
    by vm_compute.
Defined.

Lemma performStorageOperation_case_insensitive_witness :
  performStorageOperation ready
    (DObject (StorageOperation (JStr "BLOB") (JStr "listContainers"))) [JNull]
  = performStorageOperation ready
      (DObject (StorageOperation (JStr "blob") (JStr "listContainers"))) [JNull].
Proof.
  refine (performStorageOperation_case_insensitive ready _ _ [JNull] "BLOB" "blob" _ _ _ _);
    by vm_compute.
Defined.

Lemma performStorageOperation_trace_witness :
  [Created "blob" None; Entered (Funnel (Int 1)); Applied 1 [JNull]] = []
  \/ exists type c,
       (type = OperationType.Blob \/ type = OperationType.Table
        \/ type = OperationType.Queue)
       /\ ([Created "blob" None; Entered (Funnel (Int 1)); Applied 1 [JNull]]
           = [Created type c]
           \/ exists f g, restFunnel ready = Some f
                          /\ [Created "blob" None; Entered (Funnel (Int 1)); Applied 1 [JNull]]
                             = [Created type c; Entered f; Applied g [JNull]]).
Proof.
  refine (performStorageOperation_trace ready listContainers [JNull] _ (Return (JStr "done")) _).
  by vm_compute.
Defined.

Lemma performStorageOperation_service_failure_witness :
  @performStorageOperation (Fixture.with_env Fixture.bad_connection_string) ready
    listContainers [JNull]
  = ([], Throw (Failure 7)).
Proof.
  refine (@performStorageOperation_service_failure
            (Fixture.with_env Fixture.bad_connection_string) ready _ [JNull] "Blob"
            (@getBlobService (Fixture.with_env Fixture.bad_connection_string) None)
            [] (Failure 7) _ _ _).
  - by vm_compute.
  - left. by split.
  - by vm_compute.
Defined.

Lemma getRestConcurrency_is_a_number_witness :
  num_eq (getRestConcurrency (concurrency (JStr "0"))) (Int 0) = false.
Proof.
  refine (proj2 (getRestConcurrency_is_a_number (concurrency (JStr "0"))) _).
  by vm_compute.
Defined.

Lemma reads_sixteen :
  reads_as " 16 calls" false "16".
Proof.
  exists " ", "", " calls". repeat split; try done. by left.
Qed.

Lemma getRestConcurrency_reads_witness :
  getRestConcurrency (concurrency (JStr " 16 calls")) = Int 16.
Proof.
  refine (getRestConcurrency_reads (concurrency (JStr " 16 calls")) false "16" _ _).
  - exact reads_sixteen.
  - by vm_compute.
Defined.

Lemma getRestOperationTimeout_reads_witness :
  getRestOperationTimeout (timeout (JStr " 16 calls")) = Some (Int 16).
Proof.
  refine (getRestOperationTimeout_reads (timeout (JStr " 16 calls")) false "16" _ _).
  - exact reads_sixteen.
  - by vm_compute.
Defined.

(** A second progress ends the first. *)
Example progress_replaced :
  display_calls [StartProgress (JStr "Looking up"); StartProgress (JStr "Listing");
                 EndProgress; EndProgress] (init_display 0 blank)
  = ([Begun (JStr "Looking up") 0; Ended 0; Begun (JStr "Listing") 1; Ended 1],
     {| cli := Some 0%nat; progress := None; made := 2 |}).
Proof. reflexivity. Qed.

End Dispatching.

Section Support.

Lemma ensureEnvironment_returns_witness :
  @ensureEnvironment (Fixture.with_env Fixture.test_environment) = Ok tt.
Proof.
  refine (proj2 (@ensureEnvironment_returns (Fixture.with_env Fixture.test_environment)) _).
  repeat constructor; eexists; (split; [by vm_compute|discriminate]).
Defined.

Example environment_without_key :
  @ensureEnvironment (Fixture.with_env (delete "AZURE_STORAGE_ACCESS_KEY" Fixture.test_environment))
  = Error "Please specify the access key for the storage account containing management credentials in the AZURE_STORAGE_ACCESS_KEY environment variable".
Proof. by vm_compute. Qed.

(** Of a space, a dash and a full stop, the space goes. *)
Example name_taken :
  @getPublishSettings Fixture.files "/tmp/credentials" "my test-env.v2"
  = DownloadPublishSettings "mytest-env.v2".
Proof. by vm_compute. Qed.

Example name_cached :
  @getPublishSettings Fixture.files "/tmp/credentials" "cached"
  = GetPublishSettingsFromCache "cached".
Proof. by vm_compute. Qed.

Lemma settings_of_results_witness :
  length [ {| endpoint := JStr "https://management.core.windows.net/";
              subscriptionId := JStr "1"; subscriptionName := JStr "first";
              path := Fixture.cached |};
           {| endpoint := JStr "https://management.core.windows.net/";
              subscriptionId := JStr "2"; subscriptionName := JStr "second";
              path := Fixture.cached |} ] = 2%nat.
Proof.
  refine (proj1 (settings_of_results Fixture.cached
                   {| PublishProfile := Some [Fixture.management] |}
                   [Fixture.management] _ _ _)).
  - reflexivity.
  - by vm_compute.
Defined.

Lemma settings_of_throws_witness :
  settings_of Fixture.cached (Some Fixture.published) = None.
Proof.
  refine (settings_of_throws Fixture.cached Fixture.published
            [Fixture.management; Fixture.bare] Fixture.bare _ _ _).
  - reflexivity.
  - apply list_elem_of_In. right. by left.
  - right. by left.
Defined.

(** A command of nothing but spaces gives an empty word. *)
Example storage_command_blank :
  toStorageCmd "  " = ["node"; "cli.js"; "storage"; ""; "--json"].
Proof. reflexivity. Qed.

Example storage_command :
  toStorageCmd " container list t*4 "
  = ["node"; "cli.js"; "storage"; "container"; "list"; "t*4"; "--json"].
Proof. reflexivity. Qed.

End Support.

(** * The kind in the error *)

(** A [type] that is truthy and no string has no [toLowerCase]: the
    dispatcher fails with a TypeError before it has looked at the kind. *)
Lemma performStorageOperation_type_not_a_string `{Platform} st
    (o : gmap string jsval) (rest : list jsval) :
  (forall s, js_or (get o "type") (JStr "") <> JStr s) ->
  performStorageOperation st (DObject o) rest = ([], Throw TypeError).
Proof.
  intros Hno. unfold performStorageOperation, prepare.
  destruct (js_or (get o "type") (JStr "")) as [| | | |s| |] eqn:Htype; try done.
  by destruct (Hno s).
Qed.

(** C4 as the specification states it fails on a kind with a capital
    letter: [FTP] is reported as [ftp], and the string thrown does not
    carry the kind as it was given. *)
Lemma performStorageOperation_invalid_type_lowercased :
  @performStorageOperation Sample.platform Sample.ready
    (DObject (StorageOperation (JStr "FTP") (JStr "listContainers"))) []
  = ([], Throw (Thrown (JStr "Invalid azure operation type : ftp")))
  /\ @performStorageOperation Sample.platform Sample.ready
       (DObject (StorageOperation (JStr "FTP") (JStr "listContainers"))) []
     <> ([], Throw (Thrown (JStr "Invalid azure operation type : FTP"))).
Proof. split; [by vm_compute|]. vm_compute. discriminate. Qed.
